(** * million-points: a shallow embedding of [million-points.cpp]

    The program samples one hundred million 2D points, uploads them once to
    the GPU and draws them every frame as small octagons synthesised by a
    geometry shader.

    Conventions of the embedding.
    - C [int] and GLSL [int] are [Z].  A C [double] is a real number and the
      operations on doubles are those of the reals; a constant is the double
      its header defines ([M_PI] is the double nearest to pi, not pi).  Where
      the exact value of a [double] matters ([urand] at its upper end), the
      computation is repeated in binary64 arithmetic (module [Binary64]).
    - The conversion of a [double] to [float] rounds; it is an operation of
      the platform ([to_float]) of which nothing is assumed.
    - A [float] that the frame loop or a shader computes with is [option R]:
      [None] stands for a value IEEE arithmetic leaves outside the reals, the
      quotient by zero and whatever is computed from it ([None] is absorbing:
      the model does not follow IEEE where an infinity leads back to a
      number).  The operations on defined values are those of the reals.
    - Mutable globals and the GL / GLFW objects the program touches are fields
      of explicit state records that every operation threads through.
    - The pseudo-random engines, the GL shader compiler and the window system
      belong to the platform; they enter as records of operations. *)

From Stdlib Require Import String Ascii.
From Stdlib Require Import ZArith List Reals Machin Lra Lia Bool.
From Stdlib Require PrimFloat Uint63 FloatOps.
Import ListNotations.

Set Implicit Arguments.
Open Scope Z_scope.

(** ** Counted loops *)

(** [for (int j = 0; j < hi; j++) body] where the body neither writes [j] nor
    [hi]: the body runs for j = 0, 1, ..., hi-1, and not at all if hi <= 0. *)
Definition for_upto {S : Type} (hi : Z) (body : Z -> S -> S) (s : S) : S :=
  fold_left (fun acc j => body (Z.of_nat j) acc) (seq 0 (Z.to_nat hi)) s.

(** ** GLSL values *)

Module GLSL.

Definition float := option R.

Definition lit (x : R) : float := Some x.

(** int -> float conversion *)
Definition of_int (i : Z) : float := Some (IZR i).

Definition lift1 (f : R -> R) (a : float) : float :=
  match a with Some x => Some (f x) | None => None end.

Definition lift2 (f : R -> R -> R) (a b : float) : float :=
  match a, b with Some x, Some y => Some (f x y) | _, _ => None end.

Definition fadd : float -> float -> float := lift2 Rplus.
Definition fmul : float -> float -> float := lift2 Rmult.
Definition fsin : float -> float := lift1 sin.
Definition fcos : float -> float := lift1 cos.

(** The quotient is a real number exactly when the divisor is not zero. *)
Definition fdiv (a b : float) : float :=
  match a, b with
  | Some x, Some y => if Req_dec_T y 0%R then None else Some (x / y)%R
  | _, _ => None
  end.

Record vec4 := Vec4 { vx : float; vy : float; vz : float; vw : float }.

Record ivec2 := IVec2 { ix : Z; iy : Z }.

Definition vec4_add (a b : vec4) : vec4 :=
  Vec4 (fadd (vx a) (vx b)) (fadd (vy a) (vy b))
       (fadd (vz a) (vz b)) (fadd (vw a) (vw b)).

(** Every component is a real number. *)
Definition vec4_defined (v : vec4) : Prop :=
  vx v <> None /\ vy v <> None /\ vz v <> None /\ vw v <> None.

End GLSL.

(** ** The geometry shader ([geom_shader_text]) *)

Module Geom.
Import GLSL.

(** [layout(triangle_strip, max_vertices=96) out;] *)
Definition max_vertices : Z := 96.

(** [#define M_PI 3.1415926535897932384626433832795] *)
Definition M_PI : float := lit 3.1415926535897932384626433832795%R.

(** Output side of one shader invocation: the built-in output [gl_Position],
    the strip under construction and the primitives already ended. *)
Record out_state := OutState {
  gl_Position : vec4;
  strip : list vec4;
  primitives : list (list vec4)
}.

Definition set_gl_Position (v : vec4) (st : out_state) : out_state :=
  OutState v (strip st) (primitives st).

Definition EmitVertex (st : out_state) : out_state :=
  OutState (gl_Position st) (strip st ++ [gl_Position st]) (primitives st).

Definition EndPrimitive (st : out_state) : out_state :=
  OutState (gl_Position st) [] (primitives st ++ [strip st]).

Definition zero4 : vec4 := Vec4 (lit 0%R) (lit 0%R) (lit 0%R) (lit 0%R).

Definition start : out_state := OutState zero4 [] [].

(** All vertices emitted so far, in emission order. *)
Definition emitted (st : out_state) : list vec4 :=
  concat (primitives st) ++ strip st.

(** The rim vertex of step [j]:
    [gl_in[i].gl_Position + vec4(d*ct*xs, d*st, 0,0)] with
    [theta = j*(2*M_PI/n)]. *)
Definition rim (d : float) (n : Z) (xs : float) (p : vec4) (j : Z) : vec4 :=
  let theta := fmul (of_int j) (fdiv (fmul (of_int 2) M_PI) (of_int n)) in
  let st := fsin theta in
  let ct := fcos theta in
  vec4_add p (Vec4 (fmul (fmul d ct) xs) (fmul d st) (of_int 0) (of_int 0)).

(** Body of [for (int j=0; j<n+2; j++)]. *)
Definition step_j (d : float) (n : Z) (xs : float) (p : vec4) (j : Z)
    (st : out_state) : out_state :=
  let st1 :=
    if Z.rem j 2 =? 0 then EmitVertex (set_gl_Position p st) else st in
  EmitVertex (set_gl_Position (rim d n xs p j) st1).

(** [float xs = 1.0*Resolution.y/Resolution.x;] *)
Definition aspect_correction (Resolution : ivec2) : float :=
  fdiv (fmul (lit 1%R) (of_int (iy Resolution))) (of_int (ix Resolution)).

(** [main] of the shader with the two local constants [d] and [n] left
    open. *)
Definition main_with (d : float) (n : Z) (Resolution : ivec2)
    (gl_in : list vec4) : out_state :=
  let xs := aspect_correction Resolution in
  for_upto (Z.of_nat (length gl_in))
    (fun i st =>
       let p := nth (Z.to_nat i) gl_in zero4 in
       EndPrimitive (for_upto (n + 2) (step_j d n xs p) st))
    start.

(** [float d = 0.01;  int n=8; // octogons] *)
Definition d : float := lit 0.01%R.
Definition n : Z := 8.

Definition main (Resolution : ivec2) (gl_in : list vec4) : out_state :=
  main_with d n Resolution gl_in.

(** With [layout(points) in] an invocation receives one vertex. *)
Definition expand_point (Resolution : ivec2) (p : vec4) : out_state :=
  main Resolution [p].

End Geom.

(** ** Text written by [printf] and [vfprintf] *)

Module Text.
Local Open Scope string_scope.

Definition nl : string := String (ascii_of_nat 10) EmptyString.
Definition cr : string := String (ascii_of_nat 13) EmptyString.

(** An argument of a variadic print call. *)
Inductive arg := ArgInt (i : Z) | ArgStr (s : string).

Definition digit (d : Z) : string :=
  String (ascii_of_nat (48 + Z.to_nat d)) EmptyString.

Fixpoint decimal_pos (fuel : nat) (z : Z) (acc : string) : string :=
  match fuel with
  | O => acc
  | S fuel' =>
      let acc' := digit (z mod 10) ++ acc in
      if (z / 10 =? 0)%Z then acc' else decimal_pos fuel' (z / 10) acc'
  end.

(** [%d] *)
Definition decimal (z : Z) : string :=
  if (z <? 0)%Z then "-" ++ decimal_pos (S (Z.to_nat (Z.log2 (- z)))) (- z) ""
  else decimal_pos (S (Z.to_nat (Z.log2 z))) z "".

Definition render (a : arg) : string :=
  match a with ArgInt i => decimal i | ArgStr s => s end.

(** The conversions the program uses: [%d] and [%s], each consuming the next
    argument. *)
Fixpoint format (fmt : string) (args : list arg) : string :=
  match fmt with
  | EmptyString => EmptyString
  | String "%" (String c rest) =>
      if (Ascii.eqb c "d" || Ascii.eqb c "s")%bool then
        match args with
        | a :: args' => render a ++ format rest args'
        | [] => format rest []
        end
      else String "%" (String c (format rest args))
  | String c rest => String c (format rest args)
  end.

End Text.

(** ** linmath.h *)

Module Linmath.
Import GLSL.
Local Open Scope R_scope.

(** [typedef float vec4[4]; typedef vec4 mat4x4[4];] -- [M[c]] is column
    [c] of the matrix, [M[c][r]] its entry in row [r].  An entry is a real
    number, or [None] as for a GLSL [float]. *)
Definition vec4 : Type := (float * float * float * float)%type.
Definition mat4x4 : Type := (vec4 * vec4 * vec4 * vec4)%type.

Definition vget (v : vec4) (i : nat) : float :=
  let '(a0, a1, a2, a3) := v in
  match i with O => a0 | 1%nat => a1 | 2%nat => a2 | _ => a3 end.

Definition mget (M : mat4x4) (c r : nat) : float :=
  let '(c0, c1, c2, c3) := M in
  vget (match c with O => c0 | 1%nat => c1 | 2%nat => c2 | _ => c3 end) r.

Definition vbuild (f : nat -> float) : vec4 :=
  (f 0%nat, f 1%nat, f 2%nat, f 3%nat).

Definition mbuild (f : nat -> nat -> float) : mat4x4 :=
  (vbuild (f 0%nat), vbuild (f 1%nat), vbuild (f 2%nat), vbuild (f 3%nat)).

Definition fsub : float -> float -> float := lift2 Rminus.
Definition fneg : float -> float := lift1 Ropp.

(** Modelled from the spec: linmath.h is not among the sources.  The
    "identity rotation" of the transform at t = 0: [M[i][j] = i==j ? 1 : 0]. *)
Definition mat4x4_identity : mat4x4 :=
  mbuild (fun i j => if Nat.eqb i j then lit 1 else lit 0).

(** Modelled from the spec: linmath.h is not among the sources.  The product
    of "Projection x Rotation": [temp[c][r] = sum_k a[k][r] * b[c][k]],
    accumulated from 0 for k = 0..3. *)
Definition mat4x4_mul (a b : mat4x4) : mat4x4 :=
  mbuild (fun c r =>
    fold_left (fun acc k => fadd acc (fmul (mget a k r) (mget b c k)))
              [0%nat; 1%nat; 2%nat; 3%nat] (lit 0)).

(** Modelled from the spec: linmath.h is not among the sources.  The
    rotation about the Z axis by [angle] radians, applied after [M]:
    [Q = M * R] with [R] the matrix of columns (c,s,0,0), (-s,c,0,0),
    (0,0,1,0), (0,0,0,1). *)
Definition mat4x4_rotate_Z (M : mat4x4) (angle : float) : mat4x4 :=
  let s := fsin angle in
  let c := fcos angle in
  let R : mat4x4 :=
    ((c, s, lit 0, lit 0), (fneg s, c, lit 0, lit 0),
     (lit 0, lit 0, lit 1, lit 0), (lit 0, lit 0, lit 0, lit 1)) in
  mat4x4_mul M R.

(** Modelled from the spec: linmath.h is not among the sources.  The
    orthographic projection of the box [l,r] x [b,t] x [n,f]:
    [M[0][0] = 2/(r-l)], [M[1][1] = 2/(t-b)], [M[2][2] = -2/(f-n)],
    [M[3] = (-(r+l)/(r-l), -(t+b)/(t-b), -(f+n)/(f-n), 1)], 0 elsewhere. *)
Definition mat4x4_ortho (l r b t n f : float) : mat4x4 :=
  ((fdiv (lit 2) (fsub r l), lit 0, lit 0, lit 0),
   (lit 0, fdiv (lit 2) (fsub t b), lit 0, lit 0),
   (lit 0, lit 0, fdiv (lit (- 2)) (fsub f n), lit 0),
   (fdiv (fneg (fadd r l)) (fsub r l),
    fdiv (fneg (fadd t b)) (fsub t b),
    fdiv (fneg (fadd f n)) (fsub f n),
    lit 1)).

(** [M * v] for a column vector [v]. *)
Definition mat4x4_mul_vec4 (M : mat4x4) (v : vec4) : vec4 :=
  vbuild (fun j =>
    fold_left (fun acc i => fadd acc (fmul (mget M i j) (vget v i)))
              [0%nat; 1%nat; 2%nat; 3%nat] (lit 0)).

End Linmath.

(** ** The vertex shader ([vertex_shader_text]) *)

Module Vert.

(** [glm::vec2]: one point of the cloud. *)
Record vec2 := Vec2 { x : R; y : R }.

(** [gl_Position = MVP * vec4(vPos, 0.0, 1.0);] *)
Definition main (MVP : Linmath.mat4x4) (vPos : vec2) : GLSL.vec4 :=
  let '(a, b, c, d) :=
    Linmath.mat4x4_mul_vec4 MVP
      (GLSL.lit (x vPos), GLSL.lit (y vPos), GLSL.lit 0%R, GLSL.lit 1%R) in
  GLSL.Vec4 a b c d.

End Vert.

(** ** What the platform provides *)

Module Platform.

(** [<random>] and [<stdlib.h>]: the engine behind [default_random_engine],
    [normal_distribution<double>] (an object with a state of its own), and
    [rand()] with its hidden global state; and the conversion of a [double] to
    [float], which rounds to binary32. *)
Record Random := {
  engine : Type;
  (** a default-constructed engine: the default seed *)
  default_engine : engine;
  normal_distribution : Type;
  (** [normal_distribution<double> distribution(mean, stddev)] *)
  make_normal : R -> R -> normal_distribution;
  (** [distribution(generator)] *)
  sample : normal_distribution -> engine -> R * normal_distribution * engine;
  rand_state : Type;
  (** the state of [rand()] in a process that has not called [srand] *)
  rand_start : rand_state;
  rand : rand_state -> Z * rand_state;
  RAND_MAX : Z;
  RAND_MAX_min : 32767 <= RAND_MAX;
  rand_range : forall s, 0 <= fst (rand s) <= RAND_MAX;
  (** the [float] a [double] converts to *)
  to_float : R -> R
}.

(** The GL implementation: the names it hands out and the verdict of its
    shader compiler ([None]: compiled; [Some log]: [GL_COMPILE_STATUS] is
    [GL_FALSE] and [log] is the info log). *)
Record Driver := {
  gen_buffer : Z;
  create_shader : Z -> Z;
  compile : Z -> String.string -> option String.string;
  create_program : Z;
  uniform_location : String.string -> Z;
  attrib_location : String.string -> Z
}.

End Platform.

(** ** Constants of the GL and GLFW headers *)

Module GL.
Definition GL_FALSE : Z := 0.
Definition GL_POINTS : Z := 0.
Definition GL_BLEND : Z := 3042.
Definition GL_SRC_ALPHA : Z := 770.
Definition GL_ONE_MINUS_SRC_ALPHA : Z := 771.
Definition GL_FLOAT : Z := 5126.
Definition GL_COLOR_BUFFER_BIT : Z := 16384.
Definition GL_ARRAY_BUFFER : Z := 34962.
Definition GL_STATIC_DRAW : Z := 35044.
Definition GL_FRAGMENT_SHADER : Z := 35632.
Definition GL_VERTEX_SHADER : Z := 35633.
Definition GL_GEOMETRY_SHADER : Z := 36313.
Definition GLFW_TRUE : Z := 1.
Definition GLFW_PRESS : Z := 1.
Definition GLFW_KEY_ESCAPE : Z := 256.
Definition GLFW_CONTEXT_VERSION_MAJOR : Z := 139266.
Definition GLFW_CONTEXT_VERSION_MINOR : Z := 139267.
Definition EXIT_SUCCESS : Z := 0.
Definition EXIT_FAILURE : Z := 1.
Definition INT_MAX : Z := 2147483647.

(** Conversion to a 32-bit [int]. *)
Definition to_int (z : Z) : Z := (z + 2147483648) mod 4294967296 - 2147483648.

(** State-changing calls into GL and GLFW, as the program issues them.
    Queries ([glGet*], [glfwGetTime], [glfwGetFramebufferSize],
    [glfwWindowShouldClose]) are answered by the platform or by the input of
    the run and leave no entry. *)
Inductive call :=
| glfwSetErrorCallback
| glfwInit
| glfwWindowHint (hint value : Z)
| glfwCreateWindow (width height : Z) (title : String.string)
| glfwTerminate
| glfwSetKeyCallback
| glfwSetWindowSizeCallback
| glfwSetWindowRefreshCallback
| glfwMakeContextCurrent
| gladLoadGLLoader
| glfwSwapInterval (interval : Z)
| glEnable (cap : Z)
| glBlendFunc (sfactor dfactor : Z)
| glGenBuffers (count : Z)
| glBindBuffer (target buffer : Z)
| glBufferData (target size : Z) (data : list Vert.vec2) (usage : Z)
| glCreateShader (shader_type : Z)
| glShaderSource (shader : Z) (source : String.string)
| glCompileShader (shader : Z)
| glCreateProgram
| glAttachShader (program shader : Z)
| glLinkProgram (program : Z)
| glEnableVertexAttribArray (index : Z)
| glVertexAttribPointer (index size type normalized stride offset : Z)
| glViewport (x y width height : Z)
| glClear (mask : Z)
| glUseProgram (program : Z)
| glUniformMatrix4fv (location count transpose : Z) (value : Linmath.mat4x4)
| glUniform2i (location v0 v1 : Z)
| glDrawArrays (mode first count : Z)
| glfwSwapBuffers
| glfwSetWindowShouldClose (value : Z)
| glfwPollEvents
| glfwDestroyWindow
| usleep (usec : Z).

End GL.

(** ** The program *)

Module Program.
Import Platform GL Text.
Import Vert(vec2, Vec2).

Section WithPlatform.

Variable P : Random.
Variable D : Driver.

(** The globals of the program ([vertices], [gWidth], [gHeight],
    [need_redraw]) and what it changes around it: the state of [rand()], the
    should-close flag of the window, the calls made into GL and GLFW, and the
    text written to the two output streams, one entry per print call. *)
Record process := Process {
  vertices : list vec2;
  gWidth : Z;
  gHeight : Z;
  need_redraw : bool;
  crand : rand_state P;
  should_close : bool;
  calls : list call;
  stdout : list String.string;
  stderr : list String.string
}.

Definition set_vertices (v : list vec2) (w : process) : process :=
  Process v (gWidth w) (gHeight w) (need_redraw w) (crand w) (should_close w)
          (calls w) (stdout w) (stderr w).

Definition set_size (width height : Z) (w : process) : process :=
  Process (vertices w) width height (need_redraw w) (crand w) (should_close w)
          (calls w) (stdout w) (stderr w).

Definition set_need_redraw (b : bool) (w : process) : process :=
  Process (vertices w) (gWidth w) (gHeight w) b (crand w) (should_close w)
          (calls w) (stdout w) (stderr w).

Definition set_crand (s : rand_state P) (w : process) : process :=
  Process (vertices w) (gWidth w) (gHeight w) (need_redraw w) s (should_close w)
          (calls w) (stdout w) (stderr w).

Definition set_should_close (b : bool) (w : process) : process :=
  Process (vertices w) (gWidth w) (gHeight w) (need_redraw w) (crand w) b
          (calls w) (stdout w) (stderr w).

(** Issue one call into GL or GLFW. *)
Definition issue (c : call) (w : process) : process :=
  Process (vertices w) (gWidth w) (gHeight w) (need_redraw w) (crand w)
          (should_close w) (calls w ++ [c]) (stdout w) (stderr w).

Definition printf (fmt : String.string) (args : list arg) (w : process)
    : process :=
  Process (vertices w) (gWidth w) (gHeight w) (need_redraw w) (crand w)
          (should_close w) (calls w) (stdout w ++ [format fmt args]) (stderr w).

(** [vfprintf(stderr, fmt, ap)] *)
Definition eprintf (fmt : String.string) (args : list arg) (w : process)
    : process :=
  Process (vertices w) (gWidth w) (gHeight w) (need_redraw w) (crand w)
          (should_close w) (calls w) (stdout w) (stderr w ++ [format fmt args]).

(** The process as it enters [main]: [vertices] empty, [gWidth = 640],
    [gHeight = 480], [need_redraw = true], [rand()] unseeded. *)
Definition boot : process :=
  Process [] 640 480 true (rand_start P) false [] [] [].

(** *** Commands that may end the process *)

Inductive result (A : Type) :=
| Ret (a : A) (w : process)
| Halt (status : Z) (w : process).
Arguments Ret {A} a w.
Arguments Halt {A} status w.

Definition Prog (A : Type) : Type := process -> result A.

Definition ret {A} (a : A) : Prog A := fun w => Ret a w.

Definition bind {A B} (m : Prog A) (k : A -> Prog B) : Prog B :=
  fun w => match m w with
           | Ret a w' => k a w'
           | Halt status w' => Halt status w'
           end.

Notation "x <- m ;; k" := (bind m (fun x => k))
  (at level 61, m at next level, right associativity).
Notation "m ;; k" := (bind m (fun _ => k))
  (at level 61, right associativity).

(** A command that cannot fail. *)
Definition run (f : process -> process) : Prog unit := fun w => Ret tt (f w).

(** [exit(code)]: the status the parent sees is the low byte of [code]. *)
Definition exit {A} (code : Z) : Prog A := fun w => Halt (Z.land code 255) w.

(** [die(fmt, ...)]: [vfprintf(stderr, fmt, ap); exit(-1);] *)
Definition die {A} (fmt : String.string) (args : list arg) : Prog A :=
  fun w => exit (-1) (eprintf fmt args w).

(** *** [compile_shader] *)

Definition shader_type_name (shader_type : Z) : String.string :=
  if shader_type =? GL_VERTEX_SHADER then "vertex"%string
  else if shader_type =? GL_FRAGMENT_SHADER then "fragment"%string
  else "unknown type"%string.

Definition compile_shader (shader_type : Z) (source : String.string)
    : Prog Z :=
  let shader := create_shader D shader_type in
  run (issue (glCreateShader shader_type)) ;;
  run (issue (glShaderSource shader source)) ;;
  run (issue (glCompileShader shader)) ;;
  match compile D shader_type source with
  | Some errorLog =>
      (* isCompiled == GL_FALSE; [errorLog.c_str()] is the info log *)
      let shader_type_str := shader_type_name shader_type in
      (die (String.append "%s: %s" nl)
           [ArgStr shader_type_str; ArgStr errorLog] : Prog unit) ;;
      ret shader
  | None => ret shader
  end.

(** *** [urand] and [generate_vertices] *)

(** [M_PI] of [<math.h>]: the [double] 0x1.921fb54442d18p+1, that is
    7074237752028440 * 2^-51, the [double] nearest to pi. *)
Definition M_PI : R := (7074237752028440 / 2251799813685248)%R.

(** [return 1.0*rand()/RAND_MAX;] *)
Definition urand (w : process) : R * process :=
  let '(k, s) := rand P (crand w) in
  ((1 * IZR k / IZR (RAND_MAX P))%R, set_crand s w).

(** [v.resize(n)]: keep the first [n] elements, fill up with
    value-initialised ones. *)
Definition resize (n : nat) (v : list vec2) : list vec2 :=
  firstn n v ++ repeat (Vec2 0%R 0%R) (n - length v).

(** [v[i] = a] for [i] in range. *)
Fixpoint assign {A : Type} (i : nat) (a : A) (v : list A) : list A :=
  match v, i with
  | [], _ => []
  | _ :: t, O => a :: t
  | h :: t, S i' => h :: assign i' a t
  end.

(** Locals of [generate_vertices] that live across iterations. *)
Definition gen_locals : Type := (engine P * normal_distribution P)%type.

(** Body of [for (int i=0; i<(int)vertices.size(); i++)]. *)
Definition generate_step (i : Z) (st : gen_locals * process)
    : gen_locals * process :=
  let '((generator, distribution), w) := st in
  let w1 :=
    if Z.rem i 1000 =? 0
    then printf (String.append "%d" cr) [ArgInt i] w else w in
  let '(r, distribution', generator') := sample P distribution generator in
  let '(u, w2) := urand w1 in
  let theta := (2 * M_PI * u)%R in
  let x := (r * cos theta)%R in
  let y := (r * sin theta)%R in
  (* vertices[i] = {x,y}: a glm::vec2 holds two floats *)
  ((generator', distribution'),
   set_vertices
     (assign (Z.to_nat i) (Vec2 (to_float P x) (to_float P y)) (vertices w2))
     w2).

(** [generate_vertices] with its local [n] left open; [n] is not negative
    where the program sets it, and [int -> size_t] is then the identity. *)
Definition generate_vertices_with (n : Z) (w : process) : process :=
  let generator := default_engine P in
  let middle := 0.5%R in
  let std := 0.08%R in
  let distribution := make_normal P middle std in
  let w1 := printf (String.append "Generating points" nl) [] w in
  let w2 := set_vertices (resize (Z.to_nat n) (vertices w1)) w1 in
  let size := fun w' : process => Z.of_nat (length (vertices w')) in
  let '(_, w3) :=
    for_upto (to_int (size w2)) generate_step ((generator, distribution), w2) in
  printf (String.append "Done generating %d points" nl)
         [ArgInt (to_int (size w3))] w3.

(** [int n = 100000000;] *)
Definition generate_vertices : process -> process :=
  generate_vertices_with 100000000.

(** *** Shader sources *)

Definition vertex_shader_text : String.string :=
"#version 430 
layout (location = 0) in vec2 vPos;
uniform mat4 MVP;
void main()
{
    gl_Position = MVP * vec4(vPos, 0.0, 1.0);
}
".

Definition geom_shader_text : String.string :=
"#version 430
layout(points) in;
layout(triangle_strip, max_vertices=96) out;
uniform ivec2 Resolution;
#define M_PI 3.1415926535897932384626433832795
void main()
{
  float d = 0.01; // 0.01;
  int n=8; // octogons
  float xs = 1.0*Resolution.y/Resolution.x;
  for (int i=0; i<gl_in.length(); ++i)
  {
    for (int j=0; j<n+2; j++)
    {
      if (j%2==0)
      {
        gl_Position = gl_in[i].gl_Position;
        EmitVertex();
      }
      float theta = j*(2*M_PI/n);
      float st = sin(theta);
      float ct = cos(theta);
      gl_Position = gl_in[i].gl_Position + vec4(d*ct*xs, d*st, 0,0);
      EmitVertex();
    }
    EndPrimitive();
  }
}
".

Definition fragment_shader_text : String.string :=
"#version 430
out vec4 fragColor;
void main()
{
    vec3 color = vec3(1,0,0);
    fragColor = vec4(color, 0.05);
}
".

(** *** Callbacks *)

(** What [glfwSetWindowShouldClose(window, value)] does to the window. *)
Definition SetWindowShouldClose (value : Z) (w : process) : process :=
  set_should_close (negb (value =? 0)) (issue (glfwSetWindowShouldClose value) w).

Definition error_callback (error : Z) (description : String.string)
    (w : process) : process :=
  eprintf (String.append "Error: %s" nl) [ArgStr description] w.

Definition key_callback (key scancode action mods : Z) (w : process)
    : process :=
  if (key =? GLFW_KEY_ESCAPE) && (action =? GLFW_PRESS)
  then SetWindowShouldClose GLFW_TRUE w
  else w.

Definition window_size_callback (width height : Z) (w : process) : process :=
  set_need_redraw true (set_size width height w).

Definition window_refresh_callback (w : process) : process :=
  set_need_redraw true (issue glfwSwapBuffers w).

(** What the window system can deliver while the program polls.  The program
    installs no close callback: on a close request GLFW itself raises the
    should-close flag. *)
Inductive event :=
| KeyEvent (key scancode action mods : Z)
| WindowSizeEvent (width height : Z)
| WindowRefreshEvent
| CloseRequest
| ErrorEvent (error : Z) (description : String.string).

Definition dispatch (w : process) (e : event) : process :=
  match e with
  | KeyEvent key scancode action mods => key_callback key scancode action mods w
  | WindowSizeEvent width height => window_size_callback width height w
  | WindowRefreshEvent => window_refresh_callback w
  | CloseRequest => set_should_close true w
  | ErrorEvent error description => error_callback error description w
  end.

(** [glfwPollEvents()] with the events pending at that moment. *)
Definition PollEvents (pending : list event) (w : process) : process :=
  fold_left dispatch pending (issue glfwPollEvents w).

(** *** The frame loop *)

(** What one iteration of the loop reads from outside: the framebuffer size,
    the two readings of [glfwGetTime()] (the first as the [float] the program
    converts it to) and the events pending when it polls. *)
Record frame_input := FrameInput {
  fb_width : Z;
  fb_height : Z;
  draw_time : R;
  fps_time : R;
  events : list event
}.

(** Locals of [main] that live across iterations. *)
Record locals := Locals { frameCount : Z; previousTime : R }.

Definition program : Z := create_program D.
Definition mvp_location : Z := uniform_location D "MVP".
Definition vpos_location : Z := attrib_location D "vPos".
Definition res_location : Z := uniform_location D "Resolution".

(** The matrix the frame hands to [glUniformMatrix4fv]:
    [ratio = width / (float) height;] and the four calls into linmath.h. *)
Definition frame_mvp (width height : Z) (time : R) : Linmath.mat4x4 :=
  let ratio := GLSL.fdiv (GLSL.of_int width) (GLSL.of_int height) in
  let m := Linmath.mat4x4_identity in
  let m := Linmath.mat4x4_rotate_Z m (GLSL.lit time) in
  let p :=
    Linmath.mat4x4_ortho (Linmath.fneg ratio) ratio
      (GLSL.lit (- 1)) (GLSL.lit 1) (GLSL.lit 1) (GLSL.lit (- 1)) in
  Linmath.mat4x4_mul p m.

(** The branch [if (need_redraw) { ... }]. *)
Definition redraw (inp : frame_input) (st : locals * process)
    : locals * process :=
  let '(l, w) := st in
  let width := fb_width inp in
  let height := fb_height inp in
  let w := issue (glViewport 0 0 width height) w in
  let w := issue (glClear GL_COLOR_BUFFER_BIT) w in
  let mvp := frame_mvp width height (draw_time inp) in
  let w := issue (glUseProgram program) w in
  let w := issue (glUniformMatrix4fv mvp_location 1 GL_FALSE mvp) w in
  let w := issue (glUniform2i res_location (gWidth w) (gHeight w)) w in
  let w := issue (glDrawArrays GL_POINTS 0
                    (to_int (Z.of_nat (length (vertices w))))) w in
  let w := issue glfwSwapBuffers w in
  let currentTime := fps_time inp in
  (* fflush(stdout) leaves no trace in this state *)
  let '(l, w) :=
    if Rle_dec 1 (currentTime - previousTime l)
    then (Locals 0 currentTime,
          printf (String.append "FPS=%d" cr) [ArgInt (frameCount l)] w)
    else (l, w) in
  (Locals (frameCount l + 1) (previousTime l),
   set_need_redraw true w).

(** One pass through the body of [while (!glfwWindowShouldClose(window))]. *)
Definition iteration (inp : frame_input) (st : locals * process)
    : locals * process :=
  let '(l, w) :=
    if need_redraw (snd st) then redraw inp st
    else (fst st, issue (usleep 1000) (snd st)) in
  (l, PollEvents (events inp) w).

(** How far a finite stretch of input takes the loop. *)
Inductive loop_result :=
| LoopLeft (st : locals * process)
| LoopRunning (st : locals * process).

Fixpoint main_loop (frames : list frame_input) (st : locals * process)
    : loop_result :=
  if should_close (snd st) then LoopLeft st
  else match frames with
       | [] => LoopRunning st
       | inp :: rest => main_loop rest (iteration inp st)
       end.

(** *** [main] *)

(** What a run reads from outside. *)
Record run_input := RunInput {
  init_ok : bool;
  window_ok : bool;
  start_time : R;
  frames : list frame_input
}.

(** [Exited status w]: the process ended with [status];
    [Running w]: it is still in its loop when the given input ends. *)
Inductive outcome :=
| Exited (status : Z) (w : process)
| Running (w : process).

(** From [glfwSetErrorCallback] to the statement before the loop. *)
Definition setup (inp : run_input) : Prog unit :=
  run (issue glfwSetErrorCallback) ;;
  run (issue glfwInit) ;;
  (if init_ok inp then ret tt else exit EXIT_FAILURE) ;;
  run (issue (glfwWindowHint GLFW_CONTEXT_VERSION_MAJOR 2)) ;;
  run (issue (glfwWindowHint GLFW_CONTEXT_VERSION_MINOR 0)) ;;
  run (issue (glfwCreateWindow 1024 768 "One Hundred Million Points")) ;;
  (if window_ok inp then ret tt
   else run (issue glfwTerminate) ;; exit EXIT_FAILURE) ;;
  run (issue glfwSetKeyCallback) ;;
  run (issue glfwSetWindowSizeCallback) ;;
  run (issue glfwSetWindowRefreshCallback) ;;
  run (issue glfwMakeContextCurrent) ;;
  run (issue gladLoadGLLoader) ;;
  run (issue (glfwSwapInterval 1)) ;;
  run (issue (glEnable GL_BLEND)) ;;
  run (issue (glBlendFunc GL_SRC_ALPHA GL_ONE_MINUS_SRC_ALPHA)) ;;
  run (issue (glGenBuffers 1)) ;;
  let vertex_buffer := gen_buffer D in
  run (issue (glBindBuffer GL_ARRAY_BUFFER vertex_buffer)) ;;
  run (fun w =>
         issue (glBufferData GL_ARRAY_BUFFER
                  (Z.of_nat (length (vertices w)) * 8) (vertices w)
                  GL_STATIC_DRAW) w) ;;
  vertex_shader <- compile_shader GL_VERTEX_SHADER vertex_shader_text ;;
  geom_shader <- compile_shader GL_GEOMETRY_SHADER geom_shader_text ;;
  fragment_shader <- compile_shader GL_FRAGMENT_SHADER fragment_shader_text ;;
  run (issue glCreateProgram) ;;
  run (issue (glAttachShader program vertex_shader)) ;;
  run (issue (glAttachShader program geom_shader)) ;;
  run (issue (glAttachShader program fragment_shader)) ;;
  run (issue (glLinkProgram program)) ;;
  run (issue (glEnableVertexAttribArray vpos_location)) ;;
  run (issue (glVertexAttribPointer vpos_location 2 GL_FLOAT GL_FALSE 8 0)).

(** After the loop: [glfwDestroyWindow(window); glfwTerminate();
    exit(EXIT_SUCCESS);] *)
Definition shutdown : Prog unit :=
  run (issue glfwDestroyWindow) ;;
  run (issue glfwTerminate) ;;
  exit EXIT_SUCCESS.

Definition finish (r : result unit) : outcome :=
  match r with
  | Ret _ w => Running w
  | Halt status w => Exited status w
  end.

(** The loop and what follows it, from a state [st] at the loop test. *)
Definition loop_and_shutdown (frames : list frame_input)
    (st : locals * process) : outcome :=
  match main_loop frames st with
  | LoopRunning st' => Running (snd st')
  | LoopLeft st' => finish (shutdown (snd st'))
  end.

Definition main (inp : run_input) : outcome :=
  match setup inp (generate_vertices boot) with
  | Halt status w => Exited status w
  | Ret _ w => loop_and_shutdown (frames inp) (Locals 0 (start_time inp), w)
  end.

(** The process state an outcome carries. *)
Definition state_of (o : outcome) : process :=
  match o with Exited _ w => w | Running w => w end.

(** *** What the GL calls amount to on the GPU *)

Definition is_upload (c : call) : bool :=
  match c with glBufferData _ _ _ _ => true | _ => false end.

(** Number of uploads into a buffer object's data store. *)
Definition uploads (cs : list call) : nat := length (filter is_upload cs).

(** The data store of the array buffer: what the last [glBufferData] put
    there. *)
Definition buffer_store (cs : list call) : option (list vec2) :=
  fold_left (fun acc c => match c with
                          | glBufferData _ _ data _ => Some data
                          | _ => acc
                          end) cs None.

(** The value of the uniform [Resolution]: what the last [glUniform2i] on
    its location set. *)
Definition resolution_uniform (cs : list call) : option GLSL.ivec2 :=
  fold_left (fun acc c => match c with
                          | glUniform2i location v0 v1 =>
                              if location =? res_location
                              then Some (GLSL.IVec2 v0 v1) else acc
                          | _ => acc
                          end) cs None.

(** The matrices handed to [glUniformMatrix4fv], in order. *)
Definition supplied_matrices (cs : list call) : list Linmath.mat4x4 :=
  flat_map (fun c => match c with
                     | glUniformMatrix4fv _ _ _ value => [value]
                     | _ => []
                     end) cs.

(** One draw of the uploaded points with the uniforms [MVP] and
    [Resolution]: the vertex shader runs on every point, the geometry shader
    on every vertex that comes out of it. *)
Definition draw (MVP : Linmath.mat4x4) (Resolution : GLSL.ivec2)
    (points : list vec2) : list Geom.out_state :=
  map (fun vPos => Geom.expand_point Resolution (Vert.main MVP vPos)) points.

End WithPlatform.

Arguments Ret {P A} a w.
Arguments Halt {P A} status w.

End Program.

(** * Vocabulary of the statements *)

Unset Implicit Arguments.

(** ** Emissions of the geometry shader *)

Section Fan.
Import GLSL Geom.

Variables (d : float) (n : Z) (xs : float) (p : vec4).

(** What one pass of the inner loop of the geometry shader emits. *)
Definition emission (j : Z) : list vec4 :=
  if Z.rem j 2 =? 0 then [p; rim d n xs p j] else [rim d n xs p j].

(** The strip of one point: the emissions of j = 0, ..., k-1 in a row. *)
Definition fan (k : nat) : list vec4 :=
  flat_map emission (map Z.of_nat (seq 0 k)).

End Fan.

(** A vertex in clip space with every component a real number. *)
Definition origin : GLSL.vec4 :=
  GLSL.Vec4 (GLSL.lit 0%R) (GLSL.lit 0%R) (GLSL.lit 0%R) (GLSL.lit 1%R).

(** ** Draws of the sampler *)

Section Sampler.
Import Platform GL Program.
Import Vert(vec2, Vec2).

Variable P : Random.

(** The engine and the distribution object after [i] draws, starting from a
    default-constructed engine and [normal_distribution<double>(0.5, 0.08)]. *)
Fixpoint normal_state (i : nat) : gen_locals P :=
  match i with
  | O => (default_engine P, make_normal P 0.5%R 0.08%R)
  | S i' =>
      let '(generator, distribution) := normal_state i' in
      let '(_, distribution', generator') := sample P distribution generator in
      (generator', distribution')
  end.

(** The radius of point [i]: draw number [i] of the distribution. *)
Definition radius (i : nat) : R :=
  let '(generator, distribution) := normal_state i in
  fst (fst (sample P distribution generator)).

(** The state of [rand()] after [i] calls, starting from [s]. *)
Fixpoint rand_after (s : rand_state P) (i : nat) : rand_state P :=
  match i with
  | O => s
  | S i' => snd (rand P (rand_after s i'))
  end.

(** What call number [i] of [rand()] returns. *)
Definition rand_value (s : rand_state P) (i : nat) : Z :=
  fst (rand P (rand_after s i)).

(** The angle of point [i]. *)
Definition angle (s : rand_state P) (i : nat) : R :=
  (2 * M_PI * (1 * IZR (rand_value s i) / IZR (RAND_MAX P)))%R.

(** Point [i] as the buffer holds it: the two [double] products, each
    converted to [float]. *)
Definition point (s : rand_state P) (i : nat) : vec2 :=
  Vec2 (to_float P (radius i * cos (angle s i)))
       (to_float P (radius i * sin (angle s i))).

End Sampler.

Section Observations.
Import Platform GL Program.
Import Vert(vec2, Vec2).

Variables (P : Random) (D : Driver).

(** What [k] passes of the loop of [generate_vertices] have done to the
    state [w0] the loop started in. *)
Definition generated (w0 : process P) (k : nat)
    (st : gen_locals P * process P) : Prop :=
  fst st = normal_state P k /\
  crand (snd st) = rand_after P (crand w0) k /\
  vertices (snd st) =
    map (point P (crand w0)) (seq 0 k) ++ skipn k (vertices w0) /\
  gWidth (snd st) = gWidth w0 /\ gHeight (snd st) = gHeight w0 /\
  need_redraw (snd st) = need_redraw w0 /\
  should_close (snd st) = should_close w0 /\
  calls (snd st) = calls w0 /\ stderr (snd st) = stderr w0.

(** The process state after the three calls that create, load and compile
    a shader. *)
Definition compiled (shader_type : Z) (source : String.string)
    (w : process P) : process P :=
  issue (glCompileShader (create_shader D shader_type))
    (issue (glShaderSource (create_shader D shader_type) source)
       (issue (glCreateShader shader_type) w)).

(** What the claim about the upload looks at: the host buffer, the number of
    uploads so far and the data store of the GPU buffer. *)
Definition point_data (w : process P)
    : list vec2 * nat * option (list vec2) :=
  (vertices w, uploads (calls w), buffer_store (calls w)).

(** The process state a command ends in. *)
Definition result_state {A : Type} (r : result P A) : process P :=
  match r with Ret _ w => w | Halt _ w => w end.

(** An event that raises the should-close flag: Escape pressed, or a close
    request from the window system. *)
Definition closes (e : event) : Prop :=
  (exists scancode mods, e = KeyEvent GLFW_KEY_ESCAPE scancode GLFW_PRESS mods)
  \/ e = CloseRequest.

End Observations.

Arguments generated {P} w0 k st.
Arguments compiled {P} D shader_type source w.
Arguments point_data {P} w.
Arguments result_state {P A} r.

(** ** Matrices of real numbers *)

(** The matrices the statement about the transform speaks of: 4 x 4 matrices
    of real numbers, held by columns as [mat4x4] holds them. *)
Module Matrix.
Local Open Scope R_scope.

Definition vec : Type := (R * R * R * R)%type.
Definition mat : Type := (vec * vec * vec * vec)%type.

Definition vget (v : vec) (i : nat) : R :=
  let '(a0, a1, a2, a3) := v in
  match i with O => a0 | 1%nat => a1 | 2%nat => a2 | _ => a3 end.

(** The entry in column [c] and row [r]. *)
Definition get (M : mat) (c r : nat) : R :=
  let '(c0, c1, c2, c3) := M in
  vget (match c with O => c0 | 1%nat => c1 | 2%nat => c2 | _ => c3 end) r.

Definition vbuild (f : nat -> R) : vec := (f 0%nat, f 1%nat, f 2%nat, f 3%nat).

Definition build (f : nat -> nat -> R) : mat :=
  (vbuild (f 0%nat), vbuild (f 1%nat), vbuild (f 2%nat), vbuild (f 3%nat)).

Definition identity : mat :=
  ((1, 0, 0, 0), (0, 1, 0, 0), (0, 0, 1, 0), (0, 0, 0, 1)).

(** The product [A x B]: entry (row r, column c) is the sum over k of
    [A(r,k) * B(k,c)]. *)
Definition mul (A B : mat) : mat :=
  build (fun c r =>
    fold_left (fun acc k => acc + get A k r * get B c k)
              [0%nat; 1%nat; 2%nat; 3%nat] 0).

(** [M x v] for a column vector [v]. *)
Definition apply (M : mat) (v : vec) : vec :=
  vbuild (fun r =>
    fold_left (fun acc k => acc + get M k r * vget v k)
              [0%nat; 1%nat; 2%nat; 3%nat] 0).

(** The rotation of the plane by [t] radians about the Z axis. *)
Definition Rotation_Z (t : R) : mat :=
  ((cos t, sin t, 0, 0), (- sin t, cos t, 0, 0), (0, 0, 1, 0), (0, 0, 0, 1)).

(** The orthographic projection that maps the box [l,r] x [b,t] x [n,f]
    onto the cube from -1 to 1. *)
Definition ortho (l r b t n f : R) : mat :=
  ((2 / (r - l), 0, 0, 0),
   (0, 2 / (t - b), 0, 0),
   (0, 0, - 2 / (f - n), 0),
   (- (r + l) / (r - l), - (t + b) / (t - b), - (f + n) / (f - n), 1)).

(** The projection of a frame whose framebuffer is [ratio] times as wide as
    it is high: the horizontal extent is [ratio] times the vertical one. *)
Definition Projection (ratio : R) : mat :=
  ortho (- ratio) ratio (- 1) 1 1 (- 1).

(** A matrix of real numbers as a [mat4x4]. *)
Definition as_floats (M : mat) : Linmath.mat4x4 :=
  Linmath.mbuild (fun c r => Some (get M c r)).

End Matrix.

(** ** [urand] in binary64 arithmetic *)

Module Binary64.
Import PrimFloat.

Definition of_Z (z : Z) : float := of_uint63 (Uint63.of_Z z).

(** [return 1.0*rand()/RAND_MAX;] for a value [k] of [rand()], both
    integers converted to [double] (exactly: they are below 2^53). *)
Definition urand (k RAND_MAX : Z) : float :=
  div (mul (of_Z 1) (of_Z k)) (of_Z RAND_MAX).

(** [M_PI] of [<math.h>]: 0x1.921fb54442d18p+1, the double nearest to pi. *)
Definition M_PI : float := div (of_Z 7074237752028440) (of_Z 2251799813685248).

(** [double theta = 2*M_PI*urand();] *)
Definition theta (k RAND_MAX : Z) : float :=
  mul (mul (of_Z 2) M_PI) (urand k RAND_MAX).

End Binary64.

(** ** A platform to run the program on *)

Module Reference.
Import Platform.

(** The sample implementation of [rand] in ISO C (7.22.2.2):
    [next = next * 1103515245 + 12345;
     return (unsigned)(next/65536) % 32768;] with [next] a 32-bit word that
    starts at 1. *)
Definition iso_rand (next : Z) : Z * Z :=
  let next' := (next * 1103515245 + 12345) mod 4294967296 in
  ((next' / 65536) mod 32768, next').

(** [minstd_rand0], the usual [default_random_engine]. *)
Definition minstd_rand0 (x : Z) : Z := (16807 * x) mod 2147483647.

(** A stand-in for the distribution object: it keeps its two parameters and
    maps one output of the engine affinely around the mean. *)
Definition affine_sample (dist : R * R) (x : Z) : R * (R * R) * Z :=
  let x' := minstd_rand0 x in
  ((fst dist + snd dist * (2 * IZR x' / 2147483647 - 1))%R, dist, x').

(** A stand-in for the conversion to [float]: the nearest multiple of 2^-24
    (what binary32 rounding does to the numbers from 1/2 to 1). *)
Definition binary32_grid (x : R) : R :=
  (IZR (Int_part (x * 16777216 + / 2)) / 16777216)%R.

Definition random : Random :=
  {| engine := Z;
     default_engine := 1;
     normal_distribution := (R * R)%type;
     make_normal := fun mean stddev => (mean, stddev);
     sample := affine_sample;
     rand_state := Z;
     rand_start := 1;
     rand := iso_rand;
     RAND_MAX := 32767;
     RAND_MAX_min := Z.le_refl 32767;
     rand_range := fun s =>
       let bound :=
         Z.mod_pos_bound
           (((s * 1103515245 + 12345) mod 4294967296) / 65536) 32768
           eq_refl in
       conj (proj1 bound) (proj1 (Z.lt_succ_r _ 32767) (proj2 bound));
     to_float := binary32_grid |}.

(** A driver whose compiler accepts every shader. *)
Definition driver : Driver :=
  {| gen_buffer := 1;
     create_shader := fun shader_type => shader_type - 35631;
     compile := fun _ _ => None;
     create_program := 3;
     uniform_location := fun name => if String.eqb name "MVP" then 0 else 1;
     attrib_location := fun _ => 0 |}.

(** A driver whose compiler rejects the geometry shader and accepts the
    other two. *)
Definition geometry_rejecting_driver : Driver :=
  {| gen_buffer := 1;
     create_shader := fun shader_type => shader_type - 35631;
     compile := fun shader_type _ =>
       if shader_type =? GL.GL_GEOMETRY_SHADER
       then Some "0:9(3): error: syntax error"%string else None;
     create_program := 3;
     uniform_location := fun name => if String.eqb name "MVP" then 0 else 1;
     attrib_location := fun _ => 0 |}.

End Reference.

(** ** Vocabulary of the further properties *)

Section MoreObservations.
Import Platform GL Program Text.
Import Vert(vec2, Vec2).

Variables (P : Random) (D : Driver).

(** The progress lines [generate_vertices] has printed when its loop has
    made [k] passes: one line for every multiple of 1000 below [k]. *)
Definition progress_lines (k : Z) : list String.string :=
  map (fun m => String.append (decimal (1000 * Z.of_nat m)) cr)
      (seq 0 (Z.to_nat ((k + 999) / 1000))).

(** Whether an event raises the should-close flag. *)
Definition closing (e : event) : bool :=
  match e with
  | KeyEvent key _ action _ =>
      (key =? GLFW_KEY_ESCAPE) && (action =? GLFW_PRESS)
  | CloseRequest => true
  | _ => false
  end.

(** The size carried by the last resize notification among [pending]. *)
Definition last_size (pending : list event) : option (Z * Z) :=
  fold_left (fun acc e => match e with
                          | WindowSizeEvent width height => Some (width, height)
                          | _ => acc
                          end) pending None.

(** Whether an event asks for a redraw. *)
Definition wants_redraw (e : event) : bool :=
  match e with
  | WindowSizeEvent _ _ | WindowRefreshEvent => true
  | _ => false
  end.

(** The calls the callback of an event makes. *)
Definition event_calls (e : event) : list call :=
  match e with
  | KeyEvent key _ action _ =>
      if (key =? GLFW_KEY_ESCAPE) && (action =? GLFW_PRESS)
      then [glfwSetWindowShouldClose GLFW_TRUE] else []
  | WindowRefreshEvent => [glfwSwapBuffers]
  | _ => []
  end.

(** The lines the callback of an event writes to [stderr]. *)
Definition event_errors (e : event) : list String.string :=
  match e with
  | ErrorEvent _ description =>
      [String.append "Error: " (String.append description nl)]
  | _ => []
  end.

(** How often a kind of call occurs. *)
Definition count_calls (kind : call -> bool) (cs : list call) : nat :=
  length (filter kind cs).

Definition is_draw (c : call) : bool :=
  match c with glDrawArrays _ _ _ => true | _ => false end.

Definition is_poll (c : call) : bool :=
  match c with glfwPollEvents => true | _ => false end.

Definition is_usleep (c : call) : bool :=
  match c with usleep _ => true | _ => false end.

Definition is_create_shader (c : call) : bool :=
  match c with glCreateShader _ => true | _ => false end.

(** Calls that create or use the program object, and draws. *)
Definition needs_program (c : call) : bool :=
  match c with
  | glCreateProgram | glAttachShader _ _ | glLinkProgram _ | glUseProgram _
  | glUniformMatrix4fv _ _ _ _ | glUniform2i _ _ _ | glDrawArrays _ _ _ => true
  | _ => false
  end.

(** [w] with the calls [cs] made and the lines [errs] written to
    [stderr]. *)
Definition extend (cs : list call) (errs : list String.string)
    (w : process P) : process P :=
  Process P (vertices w) (gWidth w) (gHeight w) (need_redraw w) (crand w)
          (should_close w) (calls w ++ cs) (stdout w) (stderr w ++ errs).

(** The calls of [main] in four stretches: up to [glfwInit], the window,
    from the callbacks to the upload of the points [v], and from
    [glCreateProgram] to the loop. *)
Definition init_calls : list call := [glfwSetErrorCallback; glfwInit].

Definition window_calls : list call :=
  [glfwWindowHint GLFW_CONTEXT_VERSION_MAJOR 2;
   glfwWindowHint GLFW_CONTEXT_VERSION_MINOR 0;
   glfwCreateWindow 1024 768 "One Hundred Million Points"].

Definition context_calls (v : list vec2) : list call :=
  [glfwSetKeyCallback; glfwSetWindowSizeCallback;
   glfwSetWindowRefreshCallback; glfwMakeContextCurrent; gladLoadGLLoader;
   glfwSwapInterval 1; glEnable GL_BLEND;
   glBlendFunc GL_SRC_ALPHA GL_ONE_MINUS_SRC_ALPHA; glGenBuffers 1;
   glBindBuffer GL_ARRAY_BUFFER (gen_buffer D);
   glBufferData GL_ARRAY_BUFFER (Z.of_nat (length v) * 8) v GL_STATIC_DRAW].

Definition program_calls : list call :=
  [glCreateProgram;
   glAttachShader (program D) (create_shader D GL_VERTEX_SHADER);
   glAttachShader (program D) (create_shader D GL_GEOMETRY_SHADER);
   glAttachShader (program D) (create_shader D GL_FRAGMENT_SHADER);
   glLinkProgram (program D);
   glEnableVertexAttribArray (vpos_location D);
   glVertexAttribPointer (vpos_location D) 2 GL_FLOAT GL_FALSE 8 0].

(** The calls of one [compile_shader]. *)
Definition compile_calls (shader_type : Z) (source : String.string)
    : list call :=
  [glCreateShader shader_type;
   glShaderSource (create_shader D shader_type) source;
   glCompileShader (create_shader D shader_type)].

(** The line [compile_shader] writes when the compiler rejects a shader. *)
Definition diagnostic (shader_type : Z) (log : String.string)
    : String.string :=
  String.append (shader_type_name shader_type)
    (String.append ": " (String.append log nl)).

(** The three shaders in the order [main] compiles them. *)
Definition stages : list (Z * String.string) :=
  [(GL_VERTEX_SHADER, vertex_shader_text);
   (GL_GEOMETRY_SHADER, geom_shader_text);
   (GL_FRAGMENT_SHADER, fragment_shader_text)].

(** Compiling [todo] in a row: the calls made, and the stage and info log
    of the first shader the compiler rejects, after which nothing more is
    compiled. *)
Fixpoint compile_all (todo : list (Z * String.string))
    : list call * option (Z * String.string) :=
  match todo with
  | [] => ([], None)
  | (shader_type, source) :: rest =>
      match compile D shader_type source with
      | Some log => (compile_calls shader_type source, Some (shader_type, log))
      | None =>
          let '(cs, failure) := compile_all rest in
          (compile_calls shader_type source ++ cs, failure)
      end
  end.

(** The stage and info log of the first of the three shaders the compiler
    rejects, if it rejects one. *)
Definition first_rejected : option (Z * String.string) :=
  snd (compile_all stages).

(** What [setup] amounts to for points [v]: the calls it makes, the lines it
    writes to [stderr], and the exit status if it ends the process. *)
Definition setup_summary (inp : run_input) (v : list vec2)
    : list call * list String.string * option Z :=
  if negb (init_ok inp) then (init_calls, [], Some 1)
  else if negb (window_ok inp)
  then (init_calls ++ window_calls ++ [glfwTerminate], [], Some 1)
  else
    let '(cs, failure) := compile_all stages in
    match failure with
    | Some (shader_type, log) =>
        (init_calls ++ window_calls ++ context_calls v ++ cs,
         [diagnostic shader_type log], Some 255)
    | None =>
        (init_calls ++ window_calls ++ context_calls v ++ cs ++ program_calls,
         [], None)
    end.

(** The calls of a redraw, in a state [w]. *)
Definition redraw_calls (inp : frame_input) (w : process P) : list call :=
  [glViewport 0 0 (fb_width inp) (fb_height inp);
   glClear GL_COLOR_BUFFER_BIT;
   glUseProgram (program D);
   glUniformMatrix4fv (mvp_location D) 1 GL_FALSE
     (frame_mvp (fb_width inp) (fb_height inp) (draw_time inp));
   glUniform2i (res_location D) (gWidth w) (gHeight w);
   glDrawArrays GL_POINTS 0 (to_int (Z.of_nat (length (vertices w))));
   glfwSwapBuffers].

(** A draw of the whole buffer [v] as points; any call that is not a draw
    passes. *)
Definition whole_buffer (v : list vec2) (c : call) : Prop :=
  match c with
  | glDrawArrays mode first count =>
      mode = GL_POINTS /\ first = 0 /\
      count = to_int (Z.of_nat (length v))
  | _ => True
  end.

(** Neither a draw, nor a poll, nor a sleep. *)
Definition quiet (c : call) : bool :=
  negb (is_draw c || is_poll c || is_usleep c).

(** What holds of the process at every test of the loop: the points are
    [v], a redraw is due, the process has not slept, it has drawn as often as
    it has polled, and every draw was one of the whole buffer. *)
Definition steady (v : list vec2) (w : process P) : Prop :=
  vertices w = v /\
  need_redraw w = true /\
  count_calls is_usleep (calls w) = O /\
  count_calls is_draw (calls w) = count_calls is_poll (calls w) /\
  Forall (whole_buffer v) (calls w).

(** The state of the loop after one pass for each of [frames], in order. *)
Definition after_passes (frames : list frame_input)
    (st : locals * process P) : locals * process P :=
  fold_left (fun acc inp => iteration D inp acc) frames st.

(** A frame whose poll delivers no event that raises the should-close
    flag. *)
Definition calm (inp : frame_input) : Prop :=
  existsb closing (events inp) = false.

(** The state [main_loop] ends in, left or not. *)
Definition loop_state (r : loop_result P) : locals * process P :=
  match r with LoopLeft st => st | LoopRunning st => st end.

End MoreObservations.

Arguments extend {P} cs errs w.
Arguments after_passes {P} D frames st.
Arguments steady {P} v w.
Arguments redraw_calls {P} D inp w.
Arguments loop_state {P} r.

(** * Properties *)

(** ** Counted loops *)

Lemma for_upto_nonpos {S : Type} (hi : Z) (body : Z -> S -> S) (s : S) :
  hi <= 0 -> for_upto hi body s = s.
Proof.
  intros Hhi. unfold for_upto.
  replace (Z.to_nat hi) with O by lia. reflexivity.
Qed.

Lemma for_upto_to_nat {S : Type} (hi : Z) (body : Z -> S -> S) (s : S) :
  for_upto hi body s = for_upto (Z.of_nat (Z.to_nat hi)) body s.
Proof. unfold for_upto. now rewrite Nat2Z.id. Qed.

(** Running the loop up to [k] is running it [k] times. *)
Lemma for_upto_nat {S : Type} (k : nat) (body : Z -> S -> S) (s : S) :
  for_upto (Z.of_nat k) body s =
  fold_left (fun acc j => body (Z.of_nat j) acc) (seq 0 k) s.
Proof. unfold for_upto. now rewrite Nat2Z.id. Qed.

Lemma for_upto_succ {S : Type} (k : nat) (body : Z -> S -> S) (s : S) :
  for_upto (Z.of_nat (Datatypes.S k)) body s =
  body (Z.of_nat k) (for_upto (Z.of_nat k) body s).
Proof.
  rewrite !for_upto_nat, seq_S, fold_left_app. reflexivity.
Qed.

(** Loop invariants: what holds before the loop and is kept by every pass
    of the body holds after it. *)
Lemma for_upto_invariant {S : Type} (I : nat -> S -> Prop)
    (k : nat) (body : Z -> S -> S) (s : S) :
  I O s ->
  (forall j acc, (j < k)%nat -> I j acc ->
                 I (Datatypes.S j) (body (Z.of_nat j) acc)) ->
  I k (for_upto (Z.of_nat k) body s).
Proof.
  intros H0 Hstep. induction k as [|k IH].
  - exact H0.
  - rewrite for_upto_succ. apply Hstep; [lia|].
    apply IH. intros j acc Hj. apply Hstep. lia.
Qed.

(** ** The geometry shader *)

Section GeometryExpansion.
Import GLSL Geom.

Variables (d : float) (n : Z) (xs : float) (p : vec4).

Lemma step_j_strip (j : Z) (st : out_state) :
  strip (step_j d n xs p j st) = strip st ++ emission d n xs p j.
Proof.
  unfold step_j, emission. destruct (Z.rem j 2 =? 0); simpl.
  - now rewrite <- app_assoc.
  - reflexivity.
Qed.

Lemma step_j_primitives (j : Z) (st : out_state) :
  primitives (step_j d n xs p j st) = primitives st.
Proof. unfold step_j. now destruct (Z.rem j 2 =? 0). Qed.

Lemma fan_succ (k : nat) :
  fan d n xs p (S k) = fan d n xs p k ++ emission d n xs p (Z.of_nat k).
Proof.
  unfold fan. rewrite seq_S, map_app, flat_map_app. simpl.
  now rewrite app_nil_r.
Qed.

Lemma inner_loop (k : nat) (st : out_state) :
  strip (for_upto (Z.of_nat k) (step_j d n xs p) st) = strip st ++ fan d n xs p k /\
  primitives (for_upto (Z.of_nat k) (step_j d n xs p) st) = primitives st.
Proof.
  apply (for_upto_invariant
           (fun j acc => strip acc = strip st ++ fan d n xs p j /\
                         primitives acc = primitives st)).
  - split; [now rewrite app_nil_r | reflexivity].
  - intros j acc _ [Hs Hp]. split.
    + now rewrite step_j_strip, Hs, fan_succ, app_assoc.
    + now rewrite step_j_primitives.
Qed.

Lemma emission_length (k : nat) :
  length (emission d n xs p (Z.of_nat k)) = if Nat.even k then 2%nat else 1%nat.
Proof.
  unfold emission.
  rewrite Z.rem_mod_nonneg by lia.
  destruct (Nat.even k) eqn:E.
  - apply Nat.even_spec in E. destruct E as [m ->].
    replace (Z.of_nat (2 * m) mod 2) with 0; [reflexivity|].
    rewrite Nat2Z.inj_mul, Z.mul_comm. now rewrite Z.mod_mul.
  - assert (Ho : Nat.odd k = true) by (rewrite <- Nat.negb_even, E; reflexivity).
    apply Nat.odd_spec in Ho. destruct Ho as [m ->].
    replace (Z.of_nat (2 * m + 1) mod 2) with 1; [reflexivity|].
    rewrite Nat2Z.inj_add, Nat2Z.inj_mul, Z.add_comm, Z.mul_comm.
    now rewrite Z.mod_add.
Qed.

Lemma fan_length (k : nat) :
  length (fan d n xs p k) = (k + (k + 1) / 2)%nat.
Proof.
  induction k as [|k IH]; [reflexivity|].
  rewrite fan_succ, length_app, IH, emission_length.
  destruct (Nat.even k) eqn:E.
  - apply Nat.even_spec in E. destruct E as [m ->].
    replace (2 * m + 1)%nat with (1 + m * 2)%nat by lia.
    replace (S (2 * m) + 1)%nat with (0 + (m + 1) * 2)%nat by lia.
    rewrite !Nat.div_add by lia. simpl. lia.
  - assert (Ho : Nat.odd k = true) by (rewrite <- Nat.negb_even, E; reflexivity).
    apply Nat.odd_spec in Ho. destruct Ho as [m ->].
    replace (2 * m + 1 + 1)%nat with (0 + (m + 1) * 2)%nat by lia.
    replace (S (2 * m + 1) + 1)%nat with (1 + (m + 1) * 2)%nat by lia.
    rewrite !Nat.div_add by lia. simpl. lia.
Qed.

End GeometryExpansion.

(** One input point gives one primitive: its fan of [n + 2] passes. *)
Lemma main_with_single (d : GLSL.float) (n : Z) (Resolution : GLSL.ivec2)
    (p : GLSL.vec4) :
  Geom.primitives (Geom.main_with d n Resolution [p]) =
    [fan d n (Geom.aspect_correction Resolution) p (Z.to_nat (n + 2))] /\
  Geom.strip (Geom.main_with d n Resolution [p]) = [].
Proof.
  unfold Geom.main_with. change (Z.of_nat (length [p])) with (Z.of_nat 1).
  rewrite for_upto_succ.
  rewrite (@for_upto_nonpos _ (Z.of_nat 0)) by reflexivity.
  cbn [Z.to_nat Z.of_nat nth]. unfold Geom.EndPrimitive.
  cbn [Geom.primitives Geom.strip].
  rewrite (for_upto_to_nat (n + 2)).
  destruct (inner_loop d n (Geom.aspect_correction Resolution) p
              (Z.to_nat (n + 2)) Geom.start) as [Hs Hp].
  rewrite Hs, Hp. split; reflexivity.
Qed.

Lemma emitted_single (d : GLSL.float) (n : Z) (Resolution : GLSL.ivec2)
    (p : GLSL.vec4) :
  Geom.emitted (Geom.main_with d n Resolution [p]) =
  fan d n (Geom.aspect_correction Resolution) p (Z.to_nat (n + 2)).
Proof.
  unfold Geom.emitted.
  destruct (main_with_single d n Resolution p) as [-> ->].
  simpl. now rewrite !app_nil_r.
Qed.

(** The strip of the octagon, written out. *)
Lemma expand_point_emitted (Resolution : GLSL.ivec2) (p : GLSL.vec4) :
  let r := Geom.rim Geom.d Geom.n (Geom.aspect_correction Resolution) p in
  Geom.emitted (Geom.expand_point Resolution p) =
  [p; r 0; r 1; p; r 2; r 3; p; r 4; r 5; p; r 6; r 7; p; r 8; r 9].
Proof.
  intro r. unfold Geom.expand_point, Geom.main.
  rewrite emitted_single. reflexivity.
Qed.

(** C1, as the code has it: for every input point and every polygon order
    [n] the geometry shader emits the fan of its [n + 2] passes -- a rim
    vertex in every pass, preceded by the center in the passes of even
    index -- which makes [(n + 2) + ceil ((n + 2) / 2)] vertices; for the
    configured [n = 8] these are the 15 vertices center, rim, rim, center,
    rim, rim, ... *)
Theorem geom_emission_per_point :
  forall (Resolution : GLSL.ivec2) (p : GLSL.vec4),
    (forall (d : GLSL.float) (n : Z),
       let out := Geom.main_with d n Resolution [p] in
       let k := Z.to_nat (n + 2) in
       Geom.emitted out = fan d n (Geom.aspect_correction Resolution) p k /\
       length (Geom.emitted out) = (k + (k + 1) / 2)%nat) /\
    (let r := Geom.rim Geom.d Geom.n (Geom.aspect_correction Resolution) p in
     let out := Geom.expand_point Resolution p in
     Geom.emitted out =
       [p; r 0; r 1; p; r 2; r 3; p; r 4; r 5; p; r 6; r 7; p; r 8; r 9] /\
     length (Geom.emitted out) = 15%nat).
Proof.
  intros Resolution p. split.
  - intros d n out k. subst out k.
    rewrite emitted_single. split; [reflexivity | apply fan_length].
  - intros r out. subst out.
    rewrite expand_point_emitted. split; reflexivity.
Qed.

(** C1 as the spec words it fails: with [n = 8] a point gives 15 vertices,
    not [n + 2 = 10]. *)
Lemma geom_emission_not_order_plus_two :
  length (Geom.emitted (Geom.expand_point (GLSL.IVec2 640 480) origin))
  <> Z.to_nat (Geom.n + 2).
Proof. rewrite expand_point_emitted. simpl. discriminate. Qed.

(** C6: whatever the uniforms and the points of a draw call, no invocation
    of the geometry shader emits more vertices than the [max_vertices = 96]
    its layout declares. *)
Theorem geom_emission_within_budget :
  forall (MVP : Linmath.mat4x4) (Resolution : GLSL.ivec2)
         (points : list Vert.vec2),
    Forall (fun out => Z.of_nat (length (Geom.emitted out)) <= Geom.max_vertices)
           (Program.draw MVP Resolution points).
Proof.
  intros MVP Resolution points. unfold Program.draw.
  apply Forall_forall. intros out Hin.
  apply in_map_iff in Hin. destruct Hin as [vPos [<- _]].
  rewrite expand_point_emitted. unfold Geom.max_vertices. simpl. lia.
Qed.

(** ** The sampler *)

Section SamplerFacts.
Import Platform GL Program.
Import Vert(vec2, Vec2).

Variable P : Random.

Lemma length_resize (n : nat) (v : list vec2) : length (resize n v) = n.
Proof.
  unfold resize. rewrite length_app, length_firstn, repeat_length. lia.
Qed.

Lemma length_assign {A : Type} (i : nat) (a : A) (v : list A) :
  length (assign i a v) = length v.
Proof.
  revert i. induction v as [|h t IH]; intros [|i]; simpl; auto.
Qed.

Lemma assign_middle {A : Type} (k : nat) (front : list A) (old a : A)
    (back : list A) :
  length front = k ->
  assign k a (front ++ old :: back) = front ++ a :: back.
Proof.
  intros <-. induction front as [|h t IH]; simpl; [reflexivity | now rewrite IH].
Qed.

Lemma skipn_cons_nth {A : Type} (k : nat) (v : list A) :
  (k < length v)%nat -> exists old, skipn k v = old :: skipn (S k) v.
Proof.
  revert k. induction v as [|h t IH]; intros k Hk; simpl in Hk; [lia|].
  destruct k as [|k].
  - exists h. reflexivity.
  - destruct (IH k) as [old Hold]; [lia|]. exists old. exact Hold.
Qed.

Lemma generate_step_generated (w0 : process P) (k : nat)
    (st : gen_locals P * process P) :
  (k < length (vertices w0))%nat ->
  generated w0 k st ->
  generated w0 (S k) (generate_step (Z.of_nat k) st).
Proof.
  intros Hk (Hn & Hr & Hv & Hw & Hh & Hd & Hc & Hcalls & Herr).
  destruct st as [[generator distribution] w]. simpl in *.
  unfold generate_step.
  set (w1 := if Z.rem (Z.of_nat k) 1000 =? 0 then _ else w).
  assert (Hw1 : crand w1 = crand w /\ vertices w1 = vertices w /\
                gWidth w1 = gWidth w /\ gHeight w1 = gHeight w /\
                need_redraw w1 = need_redraw w /\
                should_close w1 = should_close w /\
                calls w1 = calls w /\ stderr w1 = stderr w).
  { subst w1. destruct (Z.rem (Z.of_nat k) 1000 =? 0); repeat split. }
  destruct Hw1 as (Hr1 & Hv1 & Hw1 & Hh1 & Hd1 & Hc1 & Hcalls1 & Herr1).
  destruct (sample P distribution generator) as [[r distribution'] generator']
    eqn:Es.
  unfold urand. rewrite Hr1.
  destruct (rand P (crand w)) as [u s] eqn:Er.
  assert (Hn' : normal_state P (S k) = (generator', distribution')).
  { cbn [normal_state]. now rewrite <- Hn, Es. }
  assert (Hr' : rand_after P (crand w0) (S k) = s).
  { cbn [rand_after]. now rewrite <- Hr, Er. }
  assert (Hp : point P (crand w0) k =
               Vec2 (to_float P
                       (r * cos (2 * M_PI * (1 * IZR u / IZR (RAND_MAX P)))))
                    (to_float P
                       (r * sin (2 * M_PI * (1 * IZR u / IZR (RAND_MAX P)))))).
  { unfold point, radius, angle, rand_value. now rewrite <- Hn, <- Hr, Es, Er. }
  unfold generated.
  cbn [fst snd vertices crand set_vertices set_crand gWidth gHeight
       need_redraw should_close calls stderr].
  rewrite Hn', Hr', <- Hp, Hv1, Hv, Nat2Z.id.
  destruct (skipn_cons_nth k (vertices w0) Hk) as [old ->].
  repeat split; try congruence.
  rewrite seq_S, map_app, <- app_assoc. cbn [map app Nat.add].
  apply assign_middle. now rewrite length_map, length_seq.
Qed.

Lemma generate_step_length (i : Z) (st : gen_locals P * process P) :
  length (vertices (snd (generate_step i st))) = length (vertices (snd st)).
Proof.
  destruct st as [[generator distribution] w]. unfold generate_step, urand.
  destruct (sample P distribution generator) as [[r distribution'] generator'].
  destruct (Z.rem i 1000 =? 0);
    cbn [crand printf]; destruct (rand P (crand w)) as [u s];
    cbn [snd vertices set_vertices set_crand printf];
    apply length_assign.
Qed.

(** The loop never changes the size of the buffer, however far it runs. *)
Lemma generate_loop_length (hi : Z) (st : gen_locals P * process P) :
  length (vertices (snd (for_upto hi (@generate_step P) st))) =
  length (vertices (snd st)).
Proof.
  rewrite for_upto_to_nat.
  apply (for_upto_invariant
           (fun _ acc => length (vertices (snd acc)) = length (vertices (snd st)))).
  - reflexivity.
  - intros j acc _ IH. now rewrite generate_step_length.
Qed.

Lemma generate_loop_generated (w0 : process P) (k : nat) :
  (k <= length (vertices w0))%nat ->
  generated w0 k
    (for_upto (Z.of_nat k) (@generate_step P)
       ((default_engine P, make_normal P 0.5%R 0.08%R), w0)).
Proof.
  intros Hk. apply for_upto_invariant.
  - unfold generated. cbn [fst snd normal_state rand_after seq map app skipn].
    repeat split.
  - intros j acc Hj IH. apply generate_step_generated; [lia | exact IH].
Qed.

Lemma to_int_small (z : Z) : 0 <= z <= INT_MAX -> to_int z = z.
Proof.
  unfold to_int, INT_MAX. intros Hz.
  rewrite Z.mod_small by lia. lia.
Qed.

(** [generate_vertices] for a count that fits an [int]: every element of
    the buffer is the point of its index, the state of [rand()] has advanced
    by [n] calls, and nothing else of the process has changed but the text on
    [stdout]. *)
Lemma generate_vertices_with_spec (n : Z) (w : process P) :
  0 <= n <= INT_MAX ->
  let w' := generate_vertices_with n w in
  vertices w' = map (point P (crand w)) (seq 0 (Z.to_nat n)) /\
  crand w' = rand_after P (crand w) (Z.to_nat n) /\
  gWidth w' = gWidth w /\ gHeight w' = gHeight w /\
  need_redraw w' = need_redraw w /\ should_close w' = should_close w /\
  calls w' = calls w /\ stderr w' = stderr w.
Proof.
  intros Hn w'. subst w'. unfold generate_vertices_with.
  set (w1 := printf _ [] w).
  set (w2 := set_vertices (resize (Z.to_nat n) (vertices w1)) w1).
  assert (Hlen : length (vertices w2) = Z.to_nat n)
    by (subst w2; cbn [vertices set_vertices]; apply length_resize).
  rewrite Hlen, Z2Nat.id, to_int_small by lia.
  assert (Hk : (Z.to_nat n <= length (vertices w2))%nat) by lia.
  pose proof (generate_loop_generated w2 (Z.to_nat n) Hk) as Hloop.
  rewrite Z2Nat.id in Hloop by lia.
  destruct Hloop as (_ & Hr & Hv & Hw & Hh & Hd & Hc & Hcalls & Herr).
  destruct (for_upto _ (@generate_step P) _) as [l w3].
  cbn [snd] in *. cbn [vertices crand gWidth gHeight need_redraw should_close
                       calls stderr printf].
  rewrite Hr, Hv, Hw, Hh, Hd, Hc, Hcalls, Herr.
  rewrite <- Hlen at 2. rewrite skipn_all, app_nil_r.
  repeat split.
Qed.

(** The buffer has the length [resize] gave it. *)
Lemma generate_vertices_length_nat (n : Z) (w : process P) :
  length (vertices (generate_vertices_with n w)) = Z.to_nat n.
Proof.
  unfold generate_vertices_with.
  set (w1 := printf _ [] w).
  set (w2 := set_vertices (resize (Z.to_nat n) (vertices w1)) w1).
  pose proof (generate_loop_length
                (to_int (Z.of_nat (length (vertices w2))))
                ((default_engine P, make_normal P 0.5%R 0.08%R), w2)) as Hlen.
  destruct (for_upto _ (@generate_step P) _) as [l w3].
  cbn [snd] in Hlen. cbn [vertices printf]. rewrite Hlen.
  subst w2. cbn [vertices set_vertices]. apply length_resize.
Qed.

(** C3: for every count [n >= 0] the generator leaves a buffer of exactly
    [n] points. *)
Theorem generate_vertices_length :
  forall (n : Z) (w : process P),
    0 <= n ->
    Z.of_nat (length (vertices (generate_vertices_with n w))) = n.
Proof.
  intros n w Hn. rewrite generate_vertices_length_nat. lia.
Qed.

(** For [n = 0] the buffer is empty. *)
Corollary generate_vertices_zero (w : process P) :
  vertices (generate_vertices_with 0 w) = [].
Proof.
  pose proof (generate_vertices_length_nat 0 w) as H.
  now destruct (vertices (generate_vertices_with 0 w)).
Qed.

(** The [double] [M_PI] lies below pi: pi/4 = 2 atan(1/3) + atan(1/7), and
    eighteen terms of the two series already exceed [M_PI]/4. *)
Lemma M_PI_below_PI : (M_PI < PI)%R.
Proof.
  unfold M_PI.
  pose proof (proj1 (PI_2_3_7_ineq 8)) as H.
  unfold PI_2_3_7_tg, Ratan_seq, tg_alt in H.
  cbn [sum_f_R0 Nat.mul Nat.add] in H.
  rewrite ?INR_IZR_INZ in H.
  cbn [Z.of_nat Pos.of_succ_nat Pos.succ pow] in H.
  lra.
Qed.

Lemma angle_range (s : rand_state P) (i : nat) :
  (0 <= angle P s i <= 2 * M_PI)%R.
Proof.
  unfold angle.
  pose proof (rand_range P (rand_after P s i)) as Hk.
  fold (rand_value P s i) in Hk.
  pose proof (RAND_MAX_min P) as Hmax.
  assert (HM : (0 < IZR (RAND_MAX P))%R) by (apply IZR_lt; lia).
  assert (Hk0 : (0 <= IZR (rand_value P s i))%R) by (apply IZR_le; lia).
  assert (Hk1 : (IZR (rand_value P s i) <= IZR (RAND_MAX P))%R)
    by (apply IZR_le; lia).
  set (q := (1 * IZR (rand_value P s i) / IZR (RAND_MAX P))%R).
  assert (Hq : (q * IZR (RAND_MAX P) = IZR (rand_value P s i))%R)
    by (subst q; field; lra).
  assert (Hq01 : (0 <= q <= 1)%R) by (split; nra).
  assert (Hpi : (0 < M_PI)%R) by (unfold M_PI; lra).
  split; nra.
Qed.

(** C2: for a count that fits an [int], point [i] of the buffer holds the
    single-precision values of [x = r cos theta] and [y = r sin theta], where
    [r] is draw [i] of [normal_distribution<double>(0.5, 0.08)] on the
    default-constructed engine and [theta = 2*M_PI*rand()/RAND_MAX] for call
    [i] of [rand()].  [theta] runs from 0 up to [2*M_PI], which it reaches when
    [rand()] returns [RAND_MAX]; [M_PI] being the [double] below pi, [theta]
    stays below [2 pi] for every point. *)
Theorem generate_vertices_points :
  forall (n : Z) (w : process P) (i : nat),
    0 <= n <= INT_MAX ->
    (i < Z.to_nat n)%nat ->
    let r := radius P i in
    let theta := angle P (crand w) i in
    let x := (r * cos theta)%R in
    let y := (r * sin theta)%R in
    nth_error (vertices (generate_vertices_with n w)) i =
      Some (Vec2 (to_float P x) (to_float P y)) /\
    (0 <= theta <= 2 * M_PI)%R /\
    (theta < 2 * PI)%R.
Proof.
  intros n w i Hn Hi r theta x y.
  pose proof (angle_range (crand w) i) as Hrange. fold theta in Hrange.
  pose proof M_PI_below_PI as Hpi.
  split; [|split; [exact Hrange | lra]].
  destruct (generate_vertices_with_spec n w Hn) as [-> _].
  rewrite nth_error_map, nth_error_seq.
  destruct (Nat.ltb_spec i (Z.to_nat n)) as [_|Hge]; [reflexivity | lia].
Qed.

(** C8: the points depend on nothing but the count and the state of
    [rand()]: two processes that have not seeded [rand()] and generate the
    same count end up with the same sequence of points, whatever else
    differs between them. *)
Theorem generate_vertices_deterministic :
  forall (n : Z) (w1 w2 : process P),
    0 <= n <= INT_MAX ->
    crand w1 = rand_start P ->
    crand w2 = rand_start P ->
    vertices (generate_vertices_with n w1) =
    vertices (generate_vertices_with n w2).
Proof.
  intros n w1 w2 Hn H1 H2.
  destruct (generate_vertices_with_spec n w1 Hn) as [-> _].
  destruct (generate_vertices_with_spec n w2 Hn) as [-> _].
  now rewrite H1, H2.
Qed.

End SamplerFacts.

(** With the sample [rand()] of ISO C, call number 58508 returns
    [RAND_MAX]. *)
Lemma iso_rand_hits_RAND_MAX :
  rand_value Reference.random 1 (Z.to_nat 58508) = 32767.
Proof. vm_compute. reflexivity. Qed.

Section SamplerInstances.
Import Platform GL Program.
Import Vert(vec2, Vec2).

(** In binary64 arithmetic too [urand] returns exactly 1.0 when [rand()]
    returns [RAND_MAX] (32767 for the sample [rand()] of ISO C, 2147483647
    for glibc), and [theta] is then exactly [2*M_PI]: the [double]
    7074237752028440 * 2^-50. *)
Example urand_binary64_reaches_one :
  Binary64.urand 32767 32767 = Binary64.of_Z 1 /\
  Binary64.urand 2147483647 2147483647 = Binary64.of_Z 1 /\
  Binary64.theta 2147483647 2147483647 =
    PrimFloat.mul (Binary64.of_Z 2) Binary64.M_PI /\
  PrimFloat.ltb (Binary64.theta 2147483647 2147483647)
                (PrimFloat.mul (Binary64.of_Z 2) Binary64.M_PI) = false /\
  PrimFloat.ltb (Binary64.urand 2147483646 2147483647) (Binary64.of_Z 1) = true /\
  FloatOps.Prim2SF Binary64.M_PI =
    SpecFloat.S754_finite false 7074237752028440 (-51) /\
  FloatOps.Prim2SF (Binary64.theta 32767 32767) =
    SpecFloat.S754_finite false 7074237752028440 (-50).
Proof. vm_compute. repeat split. Qed.

(** Run on the sample [rand()] of ISO C, the program draws [theta = 2*M_PI]
    for its point number 58508 (the first call of [rand()] that returns
    [RAND_MAX]): the upper end of the range of [theta] is reached, and it is
    below [2 pi]. *)
Example angle_reaches_upper_end :
  let theta :=
    angle Reference.random (crand (boot Reference.random)) (Z.to_nat 58508) in
  theta = (2 * M_PI)%R /\ (theta < 2 * PI)%R.
Proof.
  intros theta.
  assert (Htheta : theta = (2 * M_PI)%R).
  { subst theta. unfold angle. cbn [crand boot rand_start Reference.random].
    rewrite iso_rand_hits_RAND_MAX. cbn [RAND_MAX Reference.random].
    field. }
  split; [exact Htheta|].
  rewrite Htheta. pose proof M_PI_below_PI. lra.
Qed.

(** C2 at the point of the full run whose angle is the largest there is. *)
Lemma generate_vertices_points_witness :
  let i := Z.to_nat 58508 in
  let r := radius Reference.random i in
  let theta := angle Reference.random (crand (boot Reference.random)) i in
  let x := (r * cos theta)%R in
  let y := (r * sin theta)%R in
  nth_error (vertices (generate_vertices (boot Reference.random))) i =
    Some (Vec2 (to_float Reference.random x) (to_float Reference.random y)) /\
  (0 <= theta <= 2 * M_PI)%R /\
  (theta < 2 * PI)%R.
Proof.
  apply (generate_vertices_points Reference.random 100000000
           (boot Reference.random) (Z.to_nat 58508)).
  - unfold INT_MAX. lia.
  - lia.
Defined.

(** C3 for the count the program uses. *)
Lemma generate_vertices_length_witness :
  Z.of_nat (length (vertices (generate_vertices (boot Reference.random)))) =
  100000000.
Proof.
  apply (generate_vertices_length Reference.random 100000000). lia.
Defined.

(** C8 for two processes that differ in a global and in the calls made. *)
Lemma generate_vertices_deterministic_witness :
  vertices (generate_vertices
              (set_size 1024 768 (boot Reference.random))) =
  vertices (generate_vertices
              (issue glfwInit (boot Reference.random))).
Proof.
  apply (generate_vertices_deterministic Reference.random 100000000).
  - unfold INT_MAX. lia.
  - reflexivity.
  - reflexivity.
Defined.

End SamplerInstances.

(** ** Shader compilation *)

Section ShaderCompilation.
Import Platform GL Program Text.

Variables (P : Random) (D : Driver).

Lemma format_diagnostic (stage log : String.string) :
  format (String.append "%s: %s" nl) [ArgStr stage; ArgStr log] =
  String.append stage (String.append ": " (String.append log nl)).
Proof. reflexivity. Qed.

(** [compile_shader] returns the shader when the compiler accepts the
    source; otherwise it writes [<stage>: <info log>] and a newline to
    [stderr] and ends the process with status 255. *)
Lemma compile_shader_spec (shader_type : Z) (source : String.string)
    (w : process P) :
  compile_shader D shader_type source w =
  match compile D shader_type source with
  | None => Ret (create_shader D shader_type) (compiled D shader_type source w)
  | Some log =>
      Halt 255
        (eprintf (String.append "%s: %s" nl)
           [ArgStr (shader_type_name shader_type); ArgStr log]
           (compiled D shader_type source w))
  end.
Proof.
  unfold compile_shader, bind, run, ret, die, exit, compiled.
  destruct (compile D shader_type source); reflexivity.
Qed.

(** C4 on the code: when the compiler rejects the geometry shader the
    process ends with status 255 and the diagnostic on [stderr] reads
    [unknown type: <info log>]; the stage is named for the vertex and the
    fragment shader only. *)
Theorem compile_shader_geometry_unnamed :
  forall (source : String.string) (w : process P),
    shader_type_name GL_GEOMETRY_SHADER = "unknown type"%string /\
    shader_type_name GL_VERTEX_SHADER = "vertex"%string /\
    shader_type_name GL_FRAGMENT_SHADER = "fragment"%string /\
    match compile D GL_GEOMETRY_SHADER source with
    | None => True
    | Some log =>
        exists w',
          compile_shader D GL_GEOMETRY_SHADER source w = Halt 255 w' /\
          stderr w' =
            stderr w ++
            [String.append "unknown type"
               (String.append ": " (String.append log nl))]
    end.
Proof.
  intros source w. repeat split.
  rewrite compile_shader_spec.
  destruct (compile D GL_GEOMETRY_SHADER source) as [log'|]; [|exact I].
  eexists. split; [reflexivity|].
  cbn [stderr eprintf compiled issue]. now rewrite format_diagnostic.
Qed.

End ShaderCompilation.

(** ** The point data on the host and on the GPU *)

Section PointData.
Import Platform GL Program Text.
Import Vert(vec2, Vec2).

Variables (P : Random) (D : Driver).

Lemma uploads_snoc (cs : list call) (c : call) :
  uploads (cs ++ [c]) = (uploads cs + (if is_upload c then 1 else 0))%nat.
Proof.
  unfold uploads. rewrite filter_app, length_app. cbn [filter].
  now destruct (is_upload c).
Qed.

Lemma buffer_store_snoc (cs : list call) (c : call) :
  buffer_store (cs ++ [c]) =
  match c with
  | glBufferData _ _ data _ => Some data
  | _ => buffer_store cs
  end.
Proof. unfold buffer_store. rewrite fold_left_app. reflexivity. Qed.

(** A call other than [glBufferData] leaves the point data alone. *)
Lemma point_data_issue (c : call) (w : process P) :
  is_upload c = false -> point_data (issue c w) = point_data w.
Proof.
  intros Hc. unfold point_data. cbn [vertices calls issue].
  rewrite uploads_snoc, buffer_store_snoc, Hc, Nat.add_0_r.
  destruct c; try reflexivity; discriminate.
Qed.

Lemma point_data_printf (fmt : String.string) (args : list arg)
    (w : process P) : point_data (printf fmt args w) = point_data w.
Proof. reflexivity. Qed.

Lemma point_data_eprintf (fmt : String.string) (args : list arg)
    (w : process P) : point_data (eprintf fmt args w) = point_data w.
Proof. reflexivity. Qed.

Lemma point_data_set_size (width height : Z) (w : process P) :
  point_data (set_size width height w) = point_data w.
Proof. reflexivity. Qed.

Lemma point_data_set_need_redraw (b : bool) (w : process P) :
  point_data (set_need_redraw b w) = point_data w.
Proof. reflexivity. Qed.

Lemma point_data_set_should_close (b : bool) (w : process P) :
  point_data (set_should_close b w) = point_data w.
Proof. reflexivity. Qed.

Create Rewrite HintDb point_data.
#[local] Hint Rewrite point_data_printf point_data_eprintf point_data_set_size
  point_data_set_need_redraw point_data_set_should_close : point_data.

Ltac keep_point_data :=
  repeat (first
    [ progress autorewrite with point_data
    | rewrite point_data_issue by reflexivity ]);
  try reflexivity.

Lemma point_data_dispatch (w : process P) (e : event) :
  point_data (dispatch w e) = point_data w.
Proof.
  destruct e as [key scancode action mods|width height| | |error description];
    cbn [dispatch].
  - unfold key_callback, SetWindowShouldClose.
    destruct ((key =? GLFW_KEY_ESCAPE) && (action =? GLFW_PRESS));
      keep_point_data.
  - unfold window_size_callback. keep_point_data.
  - unfold window_refresh_callback. keep_point_data.
  - keep_point_data.
  - unfold error_callback. keep_point_data.
Qed.

Lemma point_data_PollEvents (pending : list event) (w : process P) :
  point_data (PollEvents pending w) = point_data w.
Proof.
  unfold PollEvents.
  transitivity (point_data (issue glfwPollEvents w)); [|keep_point_data].
  generalize (issue glfwPollEvents w). induction pending as [|e rest IH];
    intros w'; cbn [fold_left]; [reflexivity|].
  now rewrite IH, point_data_dispatch.
Qed.

Lemma point_data_redraw (inp : frame_input) (st : locals * process P) :
  point_data (snd (redraw D inp st)) = point_data (snd st).
Proof.
  destruct st as [l w]. unfold redraw. cbn [snd].
  destruct (Rle_dec 1 (fps_time inp - previousTime l)); cbn [snd];
    keep_point_data.
Qed.

Lemma point_data_iteration (inp : frame_input) (st : locals * process P) :
  point_data (snd (iteration D inp st)) = point_data (snd st).
Proof.
  unfold iteration. destruct (need_redraw (snd st)).
  - pose proof (point_data_redraw inp st) as H.
    destruct (redraw D inp st) as [l w]. cbn [snd] in *.
    now rewrite point_data_PollEvents.
  - cbn [snd]. rewrite point_data_PollEvents. keep_point_data.
Qed.

Lemma point_data_main_loop (frames : list frame_input)
    (st : locals * process P) :
  point_data
    (snd (match main_loop D frames st with
          | LoopLeft st' => st'
          | LoopRunning st' => st'
          end)) = point_data (snd st).
Proof.
  revert st. induction frames as [|inp rest IH]; intros st; cbn [main_loop];
    destruct (should_close (snd st)); try reflexivity.
  now rewrite IH, point_data_iteration.
Qed.

Lemma point_data_loop_and_shutdown (frames : list frame_input)
    (st : locals * process P) :
  point_data (state_of (loop_and_shutdown D frames st)) = point_data (snd st).
Proof.
  unfold loop_and_shutdown.
  pose proof (point_data_main_loop frames st) as H.
  destruct (main_loop D frames st) as [st'|st']; cbn [state_of].
  - unfold shutdown, bind, run, exit, finish. cbn [state_of].
    rewrite <- H. keep_point_data.
  - exact H.
Qed.

Lemma point_data_upload (target size usage : Z) (data : list vec2)
    (w : process P) :
  point_data (issue (glBufferData target size data usage) w) =
  (vertices w, S (uploads (calls w)), Some data).
Proof.
  unfold point_data. cbn [vertices calls issue].
  rewrite uploads_snoc, buffer_store_snoc. cbn [is_upload].
  now rewrite Nat.add_1_r.
Qed.

(** [setup] uploads the buffer once if it gets as far as creating the
    window, and not at all otherwise. *)
Lemma point_data_setup (inp : run_input) (w : process P) :
  point_data (result_state (setup D inp w)) =
  if init_ok inp && window_ok inp
  then (vertices w, S (uploads (calls w)), Some (vertices w))
  else point_data w.
Proof.
  unfold setup, bind, run, ret, exit.
  destruct (init_ok inp); cbn [andb result_state]; [|keep_point_data].
  destruct (window_ok inp); cbn [andb result_state]; [|keep_point_data].
  repeat (rewrite compile_shader_spec;
          match goal with
          | |- context [compile D ?t ?s] => destruct (compile D t s)
          end; cbn [result_state]);
    unfold compiled;
    repeat (first
      [ progress autorewrite with point_data
      | rewrite point_data_issue by reflexivity ]);
    rewrite point_data_upload; cbn [vertices calls issue];
    repeat rewrite uploads_snoc; cbn [is_upload]; rewrite ?Nat.add_0_r;
    reflexivity.
Qed.

(** [setup] comes back only if the window system came up. *)
Lemma setup_returns (inp : run_input) (w : process P) :
  match setup D inp w with
  | Ret _ _ => init_ok inp && window_ok inp = true
  | Halt _ _ => True
  end.
Proof.
  unfold setup, bind, run, ret, exit.
  destruct (init_ok inp); cbn [andb]; [|exact I].
  destruct (window_ok inp); cbn [andb]; [|exact I].
  match goal with |- match ?r with _ => _ end => now destruct r end.
Qed.

(** The point data when the frame loop is entered. *)
Lemma point_data_at_loop_entry (inp : run_input) (w : process P) :
  calls w = [] ->
  match setup D inp w with
  | Ret _ w1 => point_data w1 = (vertices w, 1%nat, Some (vertices w))
  | Halt _ _ => True
  end.
Proof.
  intros Hcalls.
  pose proof (point_data_setup inp w) as Hs.
  pose proof (setup_returns inp w) as Hr.
  destruct (setup D inp w) as [[] w1|status w1]; [|exact I].
  cbn [result_state] in Hs. now rewrite Hs, Hr, Hcalls.
Qed.

End PointData.

Section UploadOnce.
Import Platform GL Program.

Variables (P : Random) (D : Driver).

(** The process as [generate_vertices] leaves it at the start of [main]:
    nothing has been called yet and the globals have their initial values. *)
Lemma generate_vertices_boot :
  let w := generate_vertices (boot P) in
  vertices w = map (point P (rand_start P)) (seq 0 (Z.to_nat 100000000)) /\
  gWidth w = 640 /\ gHeight w = 480 /\ need_redraw w = true /\
  should_close w = false /\ calls w = [] /\ stderr w = [].
Proof.
  assert (Hn : 0 <= 100000000 <= INT_MAX) by (unfold INT_MAX; lia).
  destruct (generate_vertices_with_spec P 100000000 (boot P) Hn)
    as (Hv & _ & Hw & Hh & Hd & Hc & Hcalls & Herr).
  cbv zeta. unfold generate_vertices.
  rewrite Hv, Hw, Hh, Hd, Hc, Hcalls, Herr. repeat split.
Qed.

(** What a whole run does to the point data. *)
Lemma main_point_data (inp : run_input) :
  point_data (state_of (main P D inp)) =
  let generated := vertices (generate_vertices (boot P)) in
  if init_ok inp && window_ok inp
  then (generated, 1%nat, Some generated)
  else (generated, 0%nat, None).
Proof.
  destruct generate_vertices_boot as (_ & _ & _ & _ & _ & Hcalls & _).
  cbv zeta. unfold main.
  remember (generate_vertices (boot P)) as w0 eqn:Hw0. clear Hw0.
  pose proof (point_data_setup P D inp w0) as Hs. rewrite Hcalls in Hs.
  assert (Hw : point_data (result_state (setup D inp w0)) =
               if init_ok inp && window_ok inp
               then (vertices w0, 1%nat, Some (vertices w0))
               else (vertices w0, 0%nat, None)).
  { rewrite Hs. destruct (init_ok inp && window_ok inp); [reflexivity|].
    unfold point_data. rewrite Hcalls. reflexivity. }
  rewrite <- Hw.
  destruct (setup D inp w0) as [[] w1|status w1];
    cbn [result_state state_of].
  - rewrite point_data_loop_and_shutdown. reflexivity.
  - reflexivity.
Qed.

(** The points a run ends with are the generated ones, whatever the window
    system, the clock and the shader compiler did during the run. *)
Lemma main_vertices (inp : run_input) :
  vertices (state_of (main P D inp)) = vertices (generate_vertices (boot P)).
Proof.
  pose proof (main_point_data inp) as H. cbv zeta in H.
  remember (generate_vertices (boot P)) as w0 eqn:Hw0. clear Hw0.
  unfold point_data in H.
  destruct (init_ok inp && window_ok inp); injection H as H _ _; exact H.
Qed.

(** C7: a run that gets as far as having a window uploads the buffer once
    (a run that ends before that uploads nothing); the upload is made by
    [setup], so that the frame loop is entered with one upload made and the
    generated points in the data store; and neither a pass of the frame
    loop, nor an event callback, nor the rest of the run uploads again or
    changes the points on the host or on the GPU. *)
Theorem points_uploaded_once :
  forall (inp : run_input),
    let generated := vertices (generate_vertices (boot P)) in
    let w := state_of (main P D inp) in
    (vertices w = generated /\
     uploads (calls w) = (if init_ok inp && window_ok inp then 1 else 0)%nat /\
     buffer_store (calls w) =
       (if init_ok inp && window_ok inp then Some generated else None)) /\
    match setup D inp (generate_vertices (boot P)) with
    | Ret _ w1 => point_data w1 = (generated, 1%nat, Some generated)
    | Halt _ _ => True
    end /\
    (forall (frame : frame_input) (st : locals * process P),
       point_data (snd (iteration D frame st)) = point_data (snd st)) /\
    (forall (e : event) (w' : process P),
       point_data (dispatch w' e) = point_data w') /\
    (forall (frames : list frame_input) (st : locals * process P),
       point_data (state_of (loop_and_shutdown D frames st)) =
       point_data (snd st)).
Proof.
  intros inp generated w. split; [|split; [|split; [|split]]].
  - pose proof (main_point_data inp) as H. cbv zeta in H.
    subst generated w.
    remember (generate_vertices (boot P)) as w0 eqn:Hw0. clear Hw0.
    unfold point_data in H.
    destruct (init_ok inp && window_ok inp); injection H as -> -> ->;
      repeat split.
  - destruct generate_vertices_boot as (_ & _ & _ & _ & _ & Hcalls & _).
    exact (point_data_at_loop_entry P D inp _ Hcalls).
  - intros frame st. apply point_data_iteration.
  - intros e w'. apply point_data_dispatch.
  - intros frames st. apply point_data_loop_and_shutdown.
Qed.

End UploadOnce.

(** Two runs on the same platform end with the same points, whatever the
    window system, the clock and the GL driver do in either. *)
Corollary main_points_independent_of_run :
  forall (P : Platform.Random) (D1 D2 : Platform.Driver)
         (inp1 inp2 : Program.run_input),
    Program.vertices (Program.state_of (Program.main P D1 inp1)) =
    Program.vertices (Program.state_of (Program.main P D2 inp2)).
Proof. intros. rewrite !main_vertices. reflexivity. Qed.

(** ** Closing the window *)

Section Closing.
Import Platform GL Program.

Variables (P : Random) (D : Driver).

(** No event lowers the should-close flag. *)
Lemma should_close_dispatch (w : process P) (e : event) :
  should_close w = true -> should_close (dispatch w e) = true.
Proof.
  intros Hw.
  destruct e as [key scancode action mods|width height| | |error description];
    cbn [dispatch]; try exact Hw; try reflexivity.
  unfold key_callback.
  destruct ((key =? GLFW_KEY_ESCAPE) && (action =? GLFW_PRESS));
    [reflexivity | exact Hw].
Qed.

Lemma should_close_fold (pending : list event) (w : process P) :
  should_close w = true -> should_close (fold_left (@dispatch P) pending w) = true.
Proof.
  revert w. induction pending as [|e rest IH]; intros w Hw; cbn [fold_left];
    [exact Hw|].
  apply IH. now apply should_close_dispatch.
Qed.

Lemma closes_dispatch (w : process P) (e : event) :
  closes e -> should_close (dispatch w e) = true.
Proof.
  intros [[scancode [mods ->]] | ->]; reflexivity.
Qed.

Lemma closes_fold (pending : list event) (e : event) (w : process P) :
  closes e -> In e pending ->
  should_close (fold_left (@dispatch P) pending w) = true.
Proof.
  intros He. revert w. induction pending as [|e' rest IH]; intros w Hin;
    [contradiction|].
  cbn [fold_left]. destruct Hin as [->|Hin].
  - apply should_close_fold. now apply closes_dispatch.
  - now apply IH.
Qed.

Lemma closes_iteration (inp : frame_input) (e : event)
    (st : locals * process P) :
  closes e -> In e (events inp) ->
  should_close (snd (iteration D inp st)) = true.
Proof.
  intros He Hin. unfold iteration.
  destruct (if need_redraw (snd st) then _ else _) as [l w].
  cbn [snd]. unfold PollEvents. now apply closes_fold with (e := e).
Qed.

(** With the flag up the loop is left at its next test, whatever input is
    still to come, and the process ends with status 0. *)
Lemma closed_loop_and_shutdown (frames : list frame_input)
    (st : locals * process P) :
  should_close (snd st) = true ->
  loop_and_shutdown D frames st =
  Exited 0 (issue glfwTerminate (issue glfwDestroyWindow (snd st))).
Proof.
  intros Hc. unfold loop_and_shutdown.
  destruct frames; cbn [main_loop]; rewrite Hc; reflexivity.
Qed.

(** The run from a state of the loop in which the window is still open,
    when the next poll delivers an event that closes it. *)
Lemma closing_run (inp : frame_input) (rest : list frame_input) (e : event)
    (st : locals * process P) :
  should_close (snd st) = false ->
  closes e -> In e (events inp) ->
  loop_and_shutdown D (inp :: rest) st =
  Exited 0 (issue glfwTerminate
              (issue glfwDestroyWindow (snd (iteration D inp st)))).
Proof.
  intros Hopen He Hin.
  rewrite <- (closed_loop_and_shutdown rest (iteration D inp st))
    by (now apply closes_iteration with (e := e)).
  unfold loop_and_shutdown. cbn [main_loop]. now rewrite Hopen.
Qed.

(** C10: pressing Escape raises the should-close flag; the loop is then left
    after the poll that delivered the key and the process ends with status
    0, by the same path and in the same way as after a close request; a key
    event for any other key changes nothing. *)
Theorem escape_closes_normally :
  forall (inp : frame_input) (rest : list frame_input)
         (st : locals * process P) (scancode mods : Z),
    should_close (snd st) = false ->
    In (KeyEvent GLFW_KEY_ESCAPE scancode GLFW_PRESS mods) (events inp) ->
    should_close
      (key_callback GLFW_KEY_ESCAPE scancode GLFW_PRESS mods (snd st)) = true /\
    loop_and_shutdown D (inp :: rest) st =
      Exited 0 (issue glfwTerminate
                  (issue glfwDestroyWindow (snd (iteration D inp st)))) /\
    (forall inp' : frame_input,
       In CloseRequest (events inp') ->
       loop_and_shutdown D (inp' :: rest) st =
         Exited 0 (issue glfwTerminate
                     (issue glfwDestroyWindow (snd (iteration D inp' st))))) /\
    (forall (key scancode' action mods' : Z) (w : process P),
       key <> GLFW_KEY_ESCAPE ->
       key_callback key scancode' action mods' w = w).
Proof.
  intros inp rest st scancode mods Hopen Hin.
  split; [reflexivity|]. split; [|split].
  - apply closing_run
      with (e := KeyEvent GLFW_KEY_ESCAPE scancode GLFW_PRESS mods); auto.
    left. now exists scancode, mods.
  - intros inp' Hin'. apply closing_run with (e := CloseRequest); auto.
    now right.
  - intros key scancode' action mods' w Hkey. unfold key_callback.
    destruct (Z.eqb_spec key GLFW_KEY_ESCAPE) as [E|_]; [contradiction|].
    reflexivity.
Qed.

End Closing.

(** C10 for a frame whose poll delivers one press of Escape. *)
Lemma escape_closes_normally_witness :
  let P := Reference.random in
  let D := Reference.driver in
  let inp := Program.FrameInput 640 480 0%R 0%R
               [Program.KeyEvent GL.GLFW_KEY_ESCAPE 9 GL.GLFW_PRESS 0] in
  let st := (Program.Locals 0 0%R, Program.boot P) in
  Program.loop_and_shutdown D [inp] st =
  Program.Exited 0
    (Program.issue GL.glfwTerminate
       (Program.issue GL.glfwDestroyWindow (snd (Program.iteration D inp st)))).
Proof.
  intros P D inp st.
  exact (proj1 (proj2 (escape_closes_normally P D inp [] st 9 0
                         eq_refl (or_introl eq_refl)))).
Defined.

(** ** The aspect correction and the resize notification *)

Section AspectCorrection.
Import GLSL Geom.

Lemma aspect_correction_undefined (Resolution : ivec2) :
  aspect_correction Resolution = None <-> ix Resolution = 0.
Proof.
  unfold aspect_correction, fdiv, fmul, lift2, lit, of_int.
  destruct (Req_dec_T (IZR (ix Resolution)) 0) as [E|E]; split.
  - intros _. now apply eq_IZR_R0.
  - reflexivity.
  - discriminate.
  - intros E'. rewrite E' in E. now contradiction E.
Qed.

Lemma defined_quotient (j a b c : R) :
  c <> 0%R ->
  fmul (Some j) (fdiv (fmul (Some a) (Some b)) (Some c)) <> None.
Proof.
  intros Hc. unfold fdiv, fmul, lift2.
  destruct (Req_dec_T c 0) as [E|_]; [contradiction | discriminate].
Qed.

(** The step angles of the octagon are real numbers: [n = 8] is not zero. *)
Lemma theta_defined (j : Z) :
  fmul (of_int j) (fdiv (fmul (of_int 2) M_PI) (of_int n)) <> None.
Proof.
  apply defined_quotient. unfold n. intros E. apply eq_IZR_R0 in E.
  discriminate.
Qed.

Lemma rim_defined (xs : float) (p : vec4) (j : Z) :
  vec4_defined p -> (vec4_defined (rim d n xs p j) <-> xs <> None).
Proof.
  intros (Hx & Hy & Hz & Hw). unfold rim, vec4_defined, vec4_add.
  cbn [vx vy vz vw].
  pose proof (theta_defined j) as Ht.
  destruct (fmul (of_int j) (fdiv (fmul (of_int 2) M_PI) (of_int n)))
    as [theta|]; [|contradiction].
  destruct p as [[x|] [y|] [z|] [w|]]; cbn [vx vy vz vw] in *;
    try contradiction.
  unfold d, lit, of_int, fsin, fcos, lift1, fmul, fadd, lift2.
  destruct xs as [xs|]; split; intros H; try discriminate.
  - repeat split; discriminate.
  - now destruct H as [H _].
  - contradiction.
Qed.

(** The expansion of a point is well defined exactly when [Resolution.x] is
    not zero. *)
Lemma expand_point_defined (Resolution : ivec2) (p : vec4) :
  vec4_defined p ->
  (Forall vec4_defined (emitted (expand_point Resolution p)) <->
   ix Resolution <> 0).
Proof.
  intros Hp. rewrite expand_point_emitted.
  pose proof (aspect_correction_undefined Resolution) as Hxs.
  split.
  - intros H. inversion H as [|? ? _ H']. inversion H' as [|? ? Hr _].
    apply (rim_defined _ p 0 Hp) in Hr. intros E. apply Hr. now apply Hxs.
  - intros Hx.
    assert (Hr : forall j,
               vec4_defined (rim d n (aspect_correction Resolution) p j)).
    { intros j. apply (rim_defined _ p j Hp). intros E. apply Hx.
      now apply Hxs. }
    repeat (constructor; auto).
Qed.

End AspectCorrection.

Section Resize.
Import Platform GL Program.

Variables (P : Random) (D : Driver).

Lemma resolution_uniform_snoc (cs : list call) (c : call) :
  resolution_uniform D (cs ++ [c]) =
  match c with
  | glUniform2i location v0 v1 =>
      if location =? res_location D
      then Some (GLSL.IVec2 v0 v1) else resolution_uniform D cs
  | _ => resolution_uniform D cs
  end.
Proof. unfold resolution_uniform. rewrite fold_left_app. reflexivity. Qed.

(** A redraw sets the uniform [Resolution] to the globals [gWidth] and
    [gHeight] as they are, and nothing after that in the redraw touches
    it. *)
Lemma redraw_resolution (inp : frame_input) (l : locals) (w : process P) :
  resolution_uniform D (calls (snd (redraw D inp (l, w)))) =
  Some (GLSL.IVec2 (gWidth w) (gHeight w)).
Proof.
  unfold redraw.
  destruct (Rle_dec 1 (fps_time inp - previousTime l));
    cbn [snd calls issue printf set_need_redraw gWidth gHeight];
    rewrite !resolution_uniform_snoc; now rewrite Z.eqb_refl.
Qed.

(** C9: the aspect correction is the quotient [Resolution.y / Resolution.x],
    a real number exactly when [Resolution.x] is not zero, and so is the
    expansion of a point; the resize callback stores whatever width it is
    given and the next redraw hands it to the shader as it is, so that a
    width of zero reaches the division. *)
Theorem resolution_division_unguarded :
  forall (width height : Z) (w : process P) (l : locals) (inp : frame_input),
    let w' := window_size_callback width height w in
    let Resolution := GLSL.IVec2 width height in
    Geom.aspect_correction Resolution =
      GLSL.fdiv (GLSL.fmul (GLSL.lit 1%R) (GLSL.of_int height))
                (GLSL.of_int width) /\
    (Geom.aspect_correction Resolution = None <-> width = 0) /\
    (forall p : GLSL.vec4,
       GLSL.vec4_defined p ->
       (Forall GLSL.vec4_defined (Geom.emitted (Geom.expand_point Resolution p))
        <-> width <> 0)) /\
    gWidth w' = width /\ gHeight w' = height /\ need_redraw w' = true /\
    iteration D inp (l, w') =
      (fst (redraw D inp (l, w')),
       PollEvents (events inp) (snd (redraw D inp (l, w')))) /\
    resolution_uniform D (calls (snd (redraw D inp (l, w')))) = Some Resolution.
Proof.
  intros width height w l inp w' Resolution.
  split; [reflexivity|].
  split; [apply (aspect_correction_undefined Resolution)|].
  split; [intros p Hp; apply (expand_point_defined Resolution p Hp)|].
  repeat split.
  - unfold iteration. cbn [snd need_redraw w' window_size_callback
                           set_need_redraw].
    now destruct (redraw D inp (l, w')).
  - apply redraw_resolution.
Qed.

End Resize.

(** ** The transform of a frame *)

Section Transform.
Import Matrix.
Local Open Scope R_scope.

Ltac mat_eq :=
  unfold mul, identity, Rotation_Z, build, vbuild;
  cbn [fold_left get vget];
  repeat (f_equal; try ring).

Lemma mul_identity_r (M : mat) : mul M identity = M.
Proof.
  destruct M as [[[[[[a0 a1] a2] a3] [[[b0 b1] b2] b3]] [[[c0 c1] c2] c3]]
                 [[[d0 d1] d2] d3]].
  mat_eq.
Qed.

Lemma mul_identity_l (M : mat) : mul identity M = M.
Proof.
  destruct M as [[[[[[a0 a1] a2] a3] [[[b0 b1] b2] b3]] [[[c0 c1] c2] c3]]
                 [[[d0 d1] d2] d3]].
  mat_eq.
Qed.

Lemma Rotation_Z_0 : Rotation_Z 0 = identity.
Proof.
  unfold Rotation_Z, identity. now rewrite cos_0, sin_0, Ropp_0.
Qed.

(** [Rotation_Z t] turns the plane by [t] radians, counter-clockwise. *)
Lemma Rotation_Z_acts (t x y z w : R) :
  apply (Rotation_Z t) (x, y, z, w) =
  (x * cos t - y * sin t, x * sin t + y * cos t, z, w).
Proof.
  unfold apply, Rotation_Z, vbuild. cbn [fold_left get vget].
  repeat (f_equal; try ring).
Qed.

(** The projection scales x by [1/ratio] and leaves y as it is. *)
Lemma Projection_acts (ratio x y : R) :
  ratio <> 0 ->
  apply (Projection ratio) (x, y, 0, 1) = (x / ratio, y, 0, 1).
Proof.
  intros Hr. unfold apply, Projection, ortho, vbuild.
  cbn [fold_left get vget].
  repeat match goal with |- (_, _) = (_, _) => f_equal end;
    field; try exact Hr; lra.
Qed.

(** *** linmath.h on matrices of real numbers *)

Lemma identity_as_floats : Linmath.mat4x4_identity = as_floats identity.
Proof. reflexivity. Qed.

Lemma mul_as_floats (A B : mat) :
  Linmath.mat4x4_mul (as_floats A) (as_floats B) = as_floats (mul A B).
Proof.
  destruct A as [[[[[[a0 a1] a2] a3] [[[b0 b1] b2] b3]] [[[c0 c1] c2] c3]]
                 [[[d0 d1] d2] d3]].
  destruct B as [[[[[[e0 e1] e2] e3] [[[f0 f1] f2] f3]] [[[g0 g1] g2] g3]]
                 [[[h0 h1] h2] h3]].
  reflexivity.
Qed.

Lemma rotate_Z_as_floats (M : mat) (t : R) :
  Linmath.mat4x4_rotate_Z (as_floats M) (GLSL.lit t) =
  as_floats (mul M (Rotation_Z t)).
Proof.
  unfold Linmath.mat4x4_rotate_Z. rewrite <- mul_as_floats. reflexivity.
Qed.

Lemma fdiv_defined (x y : R) :
  y <> 0 -> GLSL.fdiv (Some x) (Some y) = Some (x / y).
Proof.
  intros Hy. unfold GLSL.fdiv.
  destruct (Req_dec_T y 0) as [E|_]; [contradiction | reflexivity].
Qed.

Lemma fdiv_by_zero (a : GLSL.float) : GLSL.fdiv a (Some 0) = None.
Proof.
  unfold GLSL.fdiv. destruct a as [x|]; [|reflexivity].
  destruct (Req_dec_T 0 0) as [_|E]; [reflexivity | now contradiction E].
Qed.

Lemma ortho_as_floats (l r b t n f : R) :
  r - l <> 0 -> t - b <> 0 -> f - n <> 0 ->
  Linmath.mat4x4_ortho (Some l) (Some r) (Some b) (Some t) (Some n) (Some f) =
  as_floats (ortho l r b t n f).
Proof.
  intros Hrl Htb Hfn. unfold Linmath.mat4x4_ortho.
  unfold Linmath.fsub, Linmath.fneg, GLSL.fadd, GLSL.lift1, GLSL.lift2, GLSL.lit.
  rewrite !fdiv_defined by assumption. reflexivity.
Qed.

End Transform.

Section FrameTransform.
Import Platform GL Program.

Variables (P : Random) (D : Driver).

Lemma supplied_matrices_snoc (cs : list call) (c : call) :
  supplied_matrices (cs ++ [c]) =
  supplied_matrices cs ++
  match c with glUniformMatrix4fv _ _ _ value => [value] | _ => [] end.
Proof.
  unfold supplied_matrices. rewrite flat_map_app. cbn [flat_map].
  now rewrite app_nil_r.
Qed.

(** A redraw hands one matrix to [glUniformMatrix4fv]: [mvp]. *)
Lemma redraw_matrix (inp : frame_input) (l : locals) (w : process P) :
  supplied_matrices (calls (snd (redraw D inp (l, w)))) =
  supplied_matrices (calls w) ++
  [frame_mvp (fb_width inp) (fb_height inp) (draw_time inp)].
Proof.
  unfold redraw.
  destruct (Rle_dec 1 (fps_time inp - previousTime l));
    cbn [snd calls issue printf set_need_redraw];
    rewrite !supplied_matrices_snoc; cbn [app]; now rewrite !app_nil_r.
Qed.

(** For a framebuffer of non-zero width and height [mvp] is a matrix of real
    numbers: the projection for the ratio of the two, times the rotation. *)
Lemma frame_mvp_defined (width height : Z) (t : R) :
  width <> 0 -> height <> 0 ->
  frame_mvp width height t =
  Matrix.as_floats
    (Matrix.mul (Matrix.Projection (IZR width / IZR height)%R)
                (Matrix.Rotation_Z t)).
Proof.
  intros Hw Hh.
  assert (Hw' : IZR width <> 0%R) by (intros E; apply eq_IZR_R0 in E; lia).
  assert (Hh' : IZR height <> 0%R) by (intros E; apply eq_IZR_R0 in E; lia).
  assert (Hratio : (IZR width / IZR height)%R <> 0%R).
  { unfold Rdiv. apply Rmult_integral_contrapositive_currified;
      [exact Hw' | now apply Rinv_neq_0_compat]. }
  unfold frame_mvp, GLSL.of_int. rewrite (fdiv_defined _ _ Hh').
  cbn [Linmath.fneg GLSL.lift1]. unfold GLSL.lit at 2 3 4 5.
  rewrite ortho_as_floats by lra.
  rewrite identity_as_floats, rotate_Z_as_floats, mul_identity_l.
  apply mul_as_floats.
Qed.

(** With a framebuffer of height 0 the ratio is a quotient by zero, and the
    first row of [mvp] is computed from it. *)
Lemma frame_mvp_height_zero (width : Z) (t : R) :
  map (fun c => Linmath.mget (frame_mvp width 0 t) c 0)
      [0%nat; 1%nat; 2%nat; 3%nat] = [None; None; None; None].
Proof.
  unfold frame_mvp, GLSL.of_int. rewrite fdiv_by_zero. reflexivity.
Qed.

(** With a framebuffer of width 0 and another height the ratio is 0, and the
    projection divides by [ratio - (- ratio)]. *)
Lemma frame_mvp_width_zero (height : Z) (t : R) :
  height <> 0 ->
  map (fun c => Linmath.mget (frame_mvp 0 height t) c 0)
      [0%nat; 1%nat; 2%nat; 3%nat] = [None; None; None; None].
Proof.
  intros Hh.
  assert (Hh' : IZR height <> 0%R) by (intros E; apply eq_IZR_R0 in E; lia).
  unfold frame_mvp, GLSL.of_int. rewrite (fdiv_defined _ _ Hh').
  unfold Linmath.mat4x4_ortho.
  cbn [Linmath.fneg Linmath.fsub GLSL.lift1 GLSL.lift2].
  replace (0 / IZR height - - (0 / IZR height))%R with 0%R
    by (field; exact Hh').
  rewrite !fdiv_by_zero. reflexivity.
Qed.

(** C5, for the frames it holds of: a redraw supplies one matrix to the
    pipeline; when the framebuffer has neither width nor height 0, it is the
    product of the orthographic projection for the ratio of width to height
    with the rotation about Z by the time read for the frame; at time 0 the
    rotation is the identity and the matrix is the projection. *)
Theorem frame_matrix :
  forall (inp : frame_input) (l : locals) (w : process P),
    fb_width inp <> 0 ->
    fb_height inp <> 0 ->
    let ratio := (IZR (fb_width inp) / IZR (fb_height inp))%R in
    let Projection := Matrix.Projection ratio in
    let t := draw_time inp in
    supplied_matrices (calls (snd (redraw D inp (l, w)))) =
      supplied_matrices (calls w) ++
      [Matrix.as_floats (Matrix.mul Projection (Matrix.Rotation_Z t))] /\
    Matrix.Rotation_Z 0 = Matrix.identity /\
    frame_mvp (fb_width inp) (fb_height inp) 0 = Matrix.as_floats Projection.
Proof.
  intros inp l w Hw Hh ratio Projection t. split; [|split].
  - rewrite redraw_matrix. now rewrite (frame_mvp_defined _ _ _ Hw Hh).
  - apply Rotation_Z_0.
  - rewrite (frame_mvp_defined _ _ _ Hw Hh), Rotation_Z_0.
    now rewrite mul_identity_r.
Qed.

End FrameTransform.

(** ** Runs on the reference platform *)

Section Runs.
Import Platform GL Program.

(** [setup] when the vertex shader compiles and the geometry shader does
    not. *)
Lemma setup_geometry_failure (P : Random) (D : Driver) (start : R)
    (frames : list frame_input) (log : String.string) (w : process P) :
  compile D GL_VERTEX_SHADER vertex_shader_text = None ->
  compile D GL_GEOMETRY_SHADER geom_shader_text = Some log ->
  exists w',
    setup D (RunInput true true start frames) w = Halt 255 w' /\
    stderr w' =
      stderr w ++
      [String.append "unknown type"
         (String.append ": " (String.append log Text.nl))].
Proof.
  intros Hv Hg.
  unfold setup, bind, run, ret, exit. cbn [init_ok window_ok].
  rewrite !compile_shader_spec, Hv. rewrite !compile_shader_spec, Hg.
  eexists. split; [reflexivity|].
  cbn [stderr eprintf compiled issue]. now rewrite format_diagnostic.
Qed.

(** A run in which the vertex shader compiles and the geometry shader does
    not ends with status 255 and the single line [unknown type: <info log>]
    on [stderr]. *)
Lemma main_geometry_failure (P : Random) (D : Driver) (start : R)
    (frames : list frame_input) (log : String.string) :
  compile D GL_VERTEX_SHADER vertex_shader_text = None ->
  compile D GL_GEOMETRY_SHADER geom_shader_text = Some log ->
  exists w,
    main P D (RunInput true true start frames) = Exited 255 w /\
    stderr w =
      [String.append "unknown type"
         (String.append ": " (String.append log Text.nl))].
Proof.
  intros Hv Hg.
  destruct (generate_vertices_boot P) as (_ & _ & _ & _ & _ & _ & Herr).
  destruct (setup_geometry_failure P D start frames log
              (generate_vertices (boot P)) Hv Hg) as (w' & Hsetup & Hw').
  exists w'. split.
  - unfold main. rewrite Hsetup. reflexivity.
  - rewrite Hw', Herr. reflexivity.
Qed.

Example main_geometry_failure_reference :
  exists w,
    main Reference.random Reference.geometry_rejecting_driver
         (RunInput true true 0%R []) = Exited 255 w /\
    stderr w =
      [String.append "unknown type"
         (String.append ": "
            (String.append "0:9(3): error: syntax error" Text.nl))].
Proof.
  apply (main_geometry_failure Reference.random Reference.geometry_rejecting_driver
           0%R [] "0:9(3): error: syntax error"); reflexivity.
Qed.

(** C5 for a framebuffer of 1024 x 768 at time 0. *)
Lemma frame_matrix_witness :
  let inp := FrameInput 1024 768 0%R 0%R [] in
  let w := boot Reference.random in
  let Projection := Matrix.Projection (IZR 1024 / IZR 768)%R in
  supplied_matrices
    (calls (snd (redraw Reference.driver inp (Locals 0 0%R, w)))) =
    supplied_matrices (calls w) ++
    [Matrix.as_floats (Matrix.mul Projection (Matrix.Rotation_Z 0%R))] /\
  Matrix.Rotation_Z 0%R = Matrix.identity /\
  frame_mvp 1024 768 0%R = Matrix.as_floats Projection.
Proof.
  apply (frame_matrix Reference.random Reference.driver
           (FrameInput 1024 768 0%R 0%R []) (Locals 0 0%R)
           (boot Reference.random)); simpl; lia.
Defined.

(** C5 as the spec words it fails: for a framebuffer of height 0 (a
    minimised window) the ratio is a quotient by zero and the first row of
    the matrix the frame supplies is computed from it.  That matrix is no
    product of a projection and a rotation, which are matrices of real
    numbers, and at time 0 it is not the projection [p] of the frame
    either, whose entries off the diagonal of that row are 0. *)
Lemma frame_matrix_not_at_height_zero :
  let inp := FrameInput 1024 0 0%R 0%R [] in
  let ratio := GLSL.fdiv (GLSL.of_int 1024) (GLSL.of_int 0) in
  let p :=
    Linmath.mat4x4_ortho (Linmath.fneg ratio) ratio
      (GLSL.lit (- 1)%R) (GLSL.lit 1%R) (GLSL.lit 1%R) (GLSL.lit (- 1)%R) in
  supplied_matrices
    (calls (snd (redraw Reference.driver inp
                   (Locals 0 0%R, boot Reference.random)))) =
    [frame_mvp 1024 0 0%R] /\
  map (fun c => Linmath.mget (frame_mvp 1024 0 0%R) c 0)
      [0%nat; 1%nat; 2%nat; 3%nat] = [None; None; None; None] /\
  ~ (exists Q : Matrix.mat, frame_mvp 1024 0 0%R = Matrix.as_floats Q) /\
  frame_mvp 1024 0 0%R <> p.
Proof.
  intros inp ratio p.
  pose proof (frame_mvp_height_zero 1024 0%R) as Hrow.
  split; [|split; [exact Hrow | split]].
  - exact (redraw_matrix Reference.random Reference.driver inp (Locals 0 0%R)
             (boot Reference.random)).
  - intros [Q HQ]. rewrite HQ in Hrow.
    destruct Q as [[[[[[a0 a1] a2] a3] c1] c2] c3].
    cbn [map Linmath.mget Linmath.vget Matrix.as_floats Linmath.mbuild
         Linmath.vbuild] in Hrow.
    discriminate Hrow.
  - intros E. rewrite E in Hrow. subst p. unfold Linmath.mat4x4_ortho in Hrow.
    cbn [map Linmath.mget Linmath.vget] in Hrow.
    discriminate Hrow.
Qed.

(** C9 for a window resized to 0 x 480: the aspect correction is undefined
    and so is part of every fan. *)
Lemma resolution_division_unguarded_witness :
  Geom.aspect_correction (GLSL.IVec2 0 480) = None /\
  ~ Forall GLSL.vec4_defined
      (Geom.emitted (Geom.expand_point (GLSL.IVec2 0 480) origin)).
Proof.
  pose (thm := resolution_division_unguarded Reference.random Reference.driver
                 0 480 (boot Reference.random) (Locals 0 0%R)
                 (FrameInput 640 480 0%R 0%R [])).
  destruct thm as (_ & Hxs & Hdef & _). split.
  - apply Hxs. reflexivity.
  - intros H. apply (Hdef origin) in H.
    + now apply H.
    + repeat split; discriminate.
Defined.

End Runs.

(** * Further properties *)

(** ** [urand] and [generate_vertices] *)

Section SamplerMore.
Import Platform GL Program Text.
Import Vert(vec2, Vec2).

Variable P : Random.

(** X1: [urand] returns one of the values [k / RAND_MAX] with
    [0 <= k <= RAND_MAX], so a number between 0 and 1 with both ends
    possible; it advances [rand()] by one call and touches nothing else. *)
Theorem urand_values :
  forall w : process P,
    let u := fst (urand w) in
    let w' := snd (urand w) in
    (exists k, 0 <= k <= RAND_MAX P /\ u = (IZR k / IZR (RAND_MAX P))%R) /\
    (0 <= u <= 1)%R /\
    crand w' = snd (rand P (crand w)) /\
    w' = set_crand (crand w') w.
Proof.
  intros w u w'. subst u w'. unfold urand.
  pose proof (rand_range P (crand w)) as Hk.
  pose proof (RAND_MAX_min P) as Hmax.
  destruct (rand P (crand w)) as [k s]. cbn [fst snd] in *.
  assert (HM : (0 < IZR (RAND_MAX P))%R) by (apply IZR_lt; lia).
  assert (Hk0 : (0 <= IZR k)%R) by (apply IZR_le; lia).
  assert (Hk1 : (IZR k <= IZR (RAND_MAX P))%R) by (apply IZR_le; lia).
  split; [|split; [|split]].
  - exists k. split; [exact Hk | field; lra].
  - set (q := (1 * IZR k / IZR (RAND_MAX P))%R).
    assert (Hq : (q * IZR (RAND_MAX P) = IZR k)%R) by (subst q; field; lra).
    split; nra.
  - reflexivity.
  - reflexivity.
Qed.

(** X2: for a count that fits an [int], [generate_vertices] calls [rand()]
    exactly [n] times and, apart from the buffer and the text on [stdout],
    leaves the process as it found it: no GL or GLFW call, nothing on
    [stderr], the window globals untouched. *)
Theorem generate_vertices_effects :
  forall (n : Z) (w : process P),
    0 <= n <= INT_MAX ->
    let w' := generate_vertices_with n w in
    crand w' = rand_after P (crand w) (Z.to_nat n) /\
    calls w' = calls w /\ stderr w' = stderr w /\
    gWidth w' = gWidth w /\ gHeight w' = gHeight w /\
    need_redraw w' = need_redraw w /\ should_close w' = should_close w.
Proof.
  intros n w Hn w'. subst w'.
  destruct (generate_vertices_with_spec P n w Hn)
    as (_ & Hr & Hw & Hh & Hd & Hc & Hcalls & Herr).
  repeat split; assumption.
Qed.

Lemma generate_step_stdout (i : Z) (st : gen_locals P * process P) :
  stdout (snd (generate_step i st)) =
  stdout (snd st) ++
  (if Z.rem i 1000 =? 0 then [String.append (decimal i) cr] else []).
Proof.
  destruct st as [[generator distribution] w]. unfold generate_step, urand.
  destruct (sample P distribution generator) as [[r distribution'] generator'].
  destruct (Z.rem i 1000 =? 0);
    cbn [crand printf]; destruct (rand P (crand w)) as [u s];
    cbn [snd stdout set_vertices set_crand printf].
  - reflexivity.
  - now rewrite app_nil_r.
Qed.

Lemma progress_lines_succ (k : nat) :
  progress_lines (Z.of_nat (S k)) =
  progress_lines (Z.of_nat k) ++
  (if Z.rem (Z.of_nat k) 1000 =? 0
   then [String.append (decimal (Z.of_nat k)) cr] else []).
Proof.
  unfold progress_lines. rewrite Z.rem_mod_nonneg by lia.
  rewrite Nat2Z.inj_succ.
  set (z := Z.of_nat k). assert (Hz : 0 <= z) by (subst z; lia).
  destruct (Z.eqb_spec (z mod 1000) 0) as [E|E].
  - assert (Hq : (Z.succ z + 999) / 1000 = (z + 999) / 1000 + 1)
      by (Z.to_euclidean_division_equations; lia).
    assert (Hm : 1000 * ((z + 999) / 1000) = z)
      by (Z.to_euclidean_division_equations; lia).
    assert (Hp : 0 <= (z + 999) / 1000)
      by (Z.to_euclidean_division_equations; lia).
    rewrite Hq, Z2Nat.inj_add, Nat.add_1_r by lia.
    rewrite seq_S, map_app. cbn [map Nat.add].
    now rewrite Z2Nat.id, Hm by exact Hp.
  - assert (Hq : (Z.succ z + 999) / 1000 = (z + 999) / 1000)
      by (Z.to_euclidean_division_equations; lia).
    now rewrite Hq, app_nil_r.
Qed.

Lemma generate_loop_stdout (k : nat) (st : gen_locals P * process P) :
  stdout (snd (for_upto (Z.of_nat k) (@generate_step P) st)) =
  stdout (snd st) ++ progress_lines (Z.of_nat k).
Proof.
  apply (for_upto_invariant
           (fun j acc => stdout (snd acc) =
                         stdout (snd st) ++ progress_lines (Z.of_nat j))).
  - unfold progress_lines. cbn. now rewrite app_nil_r.
  - intros j acc _ IH.
    now rewrite generate_step_stdout, IH, progress_lines_succ, app_assoc.
Qed.

(** X4: what [generate_vertices] prints, for a count that fits an [int]:
    the line [Generating points], then the progress lines [0], [1000],
    [2000], ... (each ended by a carriage return) for the multiples of 1000
    below [n] -- [ceil (n / 1000)] of them, none for [n = 0] -- and last
    [Done generating <n> points]. *)
Theorem generate_vertices_progress :
  forall (n : Z) (w : process P),
    0 <= n <= INT_MAX ->
    stdout (generate_vertices_with n w) =
      stdout w ++
      [String.append "Generating points" nl] ++
      progress_lines n ++
      [String.append "Done generating "
         (String.append (decimal n) (String.append " points" nl))] /\
    Z.of_nat (length (progress_lines n)) = (n + 999) / 1000.
Proof.
  intros n w Hn. split.
  - unfold generate_vertices_with.
    set (w1 := printf _ [] w).
    set (w2 := set_vertices (resize (Z.to_nat n) (vertices w1)) w1).
    assert (Hlen : length (vertices w2) = Z.to_nat n)
      by (subst w2; cbn [vertices set_vertices]; apply length_resize).
    rewrite Hlen, Z2Nat.id, to_int_small by lia.
    pose proof (generate_loop_stdout (Z.to_nat n)
                  ((default_engine P, make_normal P 0.5%R 0.08%R), w2)) as Hout.
    pose proof (generate_loop_length P n
                  ((default_engine P, make_normal P 0.5%R 0.08%R), w2)) as Hl.
    rewrite Z2Nat.id in Hout by lia.
    destruct (for_upto n (@generate_step P) _) as [l w3].
    cbn [snd] in Hout, Hl. cbn [stdout printf].
    rewrite Hout, Hl, Hlen, Z2Nat.id, to_int_small by lia.
    subst w2 w1. cbn [stdout set_vertices printf].
    rewrite <- !app_assoc. reflexivity.
  - unfold progress_lines. rewrite length_map, length_seq.
    apply Z2Nat.id. apply Z.div_pos; lia.
Qed.

End SamplerMore.

(** ** The geometry shader on any input *)

Section GeometryMore.
Import GLSL Geom.

Lemma firstn_snoc_nth {A : Type} (k : nat) (l : list A) (default : A) :
  (k < length l)%nat -> firstn (S k) l = firstn k l ++ [nth k l default].
Proof.
  revert k. induction l as [|h t IH]; intros k Hk; cbn [length] in Hk; [lia|].
  destruct k as [|k]; [reflexivity|].
  cbn [firstn nth app]. f_equal. apply IH. lia.
Qed.

(** The outer loop: after [k] input vertices there is one ended primitive
    for each of them and no vertex outside a primitive. *)
Lemma outer_loop (d : float) (n : Z) (Resolution : ivec2) (gl_in : list vec4)
    (k : nat) :
  (k <= length gl_in)%nat ->
  let xs := aspect_correction Resolution in
  let out :=
    for_upto (Z.of_nat k)
      (fun i st =>
         let p := nth (Z.to_nat i) gl_in zero4 in
         EndPrimitive (for_upto (n + 2) (step_j d n xs p) st))
      start in
  primitives out =
    map (fun p => fan d n xs p (Z.to_nat (n + 2))) (firstn k gl_in) /\
  strip out = [].
Proof.
  intros Hk xs out. subst out. revert Hk.
  apply (for_upto_invariant
           (fun j acc =>
              (j <= length gl_in)%nat ->
              primitives acc =
                map (fun p => fan d n xs p (Z.to_nat (n + 2)))
                    (firstn j gl_in) /\
              strip acc = [])).
  - intros _. split; reflexivity.
  - intros j acc _ IH Hj. destruct IH as [Hp Hs]; [lia|].
    cbv zeta. rewrite Nat2Z.id. unfold EndPrimitive.
    cbn [primitives strip]. rewrite (for_upto_to_nat (n + 2)).
    destruct (inner_loop d n xs (nth j gl_in zero4) (Z.to_nat (n + 2)) acc)
      as [Hs' Hp'].
    rewrite Hs', Hp', Hp, Hs.
    rewrite (firstn_snoc_nth j gl_in zero4) by lia.
    rewrite map_app. split; reflexivity.
Qed.

Lemma length_concat_fans (d : float) (n : Z) (xs : float) (l : list vec4) :
  let k := Z.to_nat (n + 2) in
  length (concat (map (fun p => fan d n xs p k) l)) =
  ((k + (k + 1) / 2) * length l)%nat.
Proof.
  intros k. induction l as [|p l IH]; cbn [map concat length]; [lia|].
  rewrite length_app, IH, fan_length. lia.
Qed.

(** X5: whatever the number of vertices an invocation receives, the shader
    ends one primitive per input vertex, in order, each the fan of that
    vertex, and leaves no vertex outside a primitive; the configured shader
    therefore emits 15 vertices per input vertex and nothing for an empty
    input. *)
Theorem geom_main_any_input :
  forall (Resolution : ivec2) (gl_in : list vec4),
    (forall (d : float) (n : Z),
       let out := main_with d n Resolution gl_in in
       primitives out =
         map (fun p => fan d n (aspect_correction Resolution) p
                           (Z.to_nat (n + 2))) gl_in /\
       strip out = []) /\
    length (primitives (main Resolution gl_in)) = length gl_in /\
    length (emitted (main Resolution gl_in)) = (15 * length gl_in)%nat.
Proof.
  intros Resolution gl_in.
  assert (H : forall d n,
             primitives (main_with d n Resolution gl_in) =
               map (fun p => fan d n (aspect_correction Resolution) p
                                 (Z.to_nat (n + 2))) gl_in /\
             strip (main_with d n Resolution gl_in) = []).
  { intros d n.
    pose proof (outer_loop d n Resolution gl_in (length gl_in) (le_n _)) as H.
    cbv zeta in H. rewrite firstn_all in H. exact H. }
  split; [exact H|].
  destruct (H Geom.d Geom.n) as [Hp Hs]. unfold main, emitted.
  rewrite Hp, Hs, app_nil_r, length_map. split; [reflexivity|].
  rewrite length_concat_fans. reflexivity.
Qed.

(** The offset the shader adds to the input vertex is [vec4(.., .., 0, 0)]:
    a rim vertex has the depth and the [w] of the input vertex. *)
Lemma rim_depth (d0 : float) (n0 : Z) (xs : float) (p : vec4) (j : Z) :
  vz (rim d0 n0 xs p j) = vz p /\ vw (rim d0 n0 xs p j) = vw p.
Proof.
  unfold rim, vec4_add, fadd, lift2, of_int. cbn [vz vw].
  destruct (vz p), (vw p); split; try reflexivity; f_equal; ring.
Qed.

(** X6: every vertex an invocation emits, centre or rim, has the depth and
    the [w] of the input vertex: the expansion moves a point within its plane
    only.  This holds for every radius, polygon order and [Resolution], a
    [Resolution] of width 0 included, where the x coordinate of the rim is
    undefined. *)
Theorem geom_depth_unchanged :
  forall (Resolution : ivec2) (p : vec4),
    (forall (d0 : float) (n0 : Z),
       Forall (fun v => vz v = vz p /\ vw v = vw p)
              (emitted (main_with d0 n0 Resolution [p]))) /\
    Forall (fun v => vz v = vz p /\ vw v = vw p)
           (emitted (expand_point Resolution p)).
Proof.
  intros Resolution p.
  assert (H : forall d0 n0,
             Forall (fun v => vz v = vz p /\ vw v = vw p)
                    (emitted (main_with d0 n0 Resolution [p]))).
  { intros d0 n0. rewrite emitted_single.
    generalize (Z.to_nat (n0 + 2)). intros k.
    induction k as [|k IH]; [constructor|].
    rewrite fan_succ. apply Forall_app. split; [exact IH|].
    unfold emission.
    pose proof (rim_depth d0 n0 (aspect_correction Resolution) p (Z.of_nat k))
      as Hrim.
    destruct (Z.rem (Z.of_nat k) 2 =? 0); repeat constructor;
      solve [reflexivity | apply Hrim]. }
  split; [exact H | apply (H d n)].
Qed.

Lemma rim_radius_zero (n0 : Z) (xs : R) (x y z w : R) (j : Z) :
  n0 <> 0 ->
  rim (lit 0%R) n0 (Some xs) (Vec4 (Some x) (Some y) (Some z) (Some w)) j =
  Vec4 (Some x) (Some y) (Some z) (Some w).
Proof.
  intros Hn.
  unfold rim, vec4_add, M_PI.
  unfold fdiv, fmul, fadd, fsin, fcos, lift1, lift2, of_int, lit.
  cbn [vx vy vz vw].
  destruct (Req_dec_T (IZR n0) 0) as [E|_];
    [apply eq_IZR_R0 in E; contradiction|].
  f_equal; f_equal; ring.
Qed.

(** X7: with radius [d = 0] the fan is degenerate: for a [Resolution] of
    non-zero width, a polygon order other than zero and an input vertex of
    real coordinates, every vertex the shader emits is the input vertex. *)
Theorem geom_fan_degenerate :
  forall (n0 : Z) (Resolution : ivec2) (x y z w : R),
    ix Resolution <> 0 ->
    n0 <> 0 ->
    let p := Vec4 (Some x) (Some y) (Some z) (Some w) in
    Forall (fun v => v = p)
           (emitted (main_with (lit 0%R) n0 Resolution [p])).
Proof.
  intros n0 Resolution x y z w HW Hn p.
  rewrite emitted_single.
  destruct (aspect_correction Resolution) as [xs|] eqn:Exs;
    [|apply aspect_correction_undefined in Exs; contradiction].
  generalize (Z.to_nat (n0 + 2)). intros k.
  induction k as [|k IH]; [constructor|].
  rewrite fan_succ. apply Forall_app. split; [exact IH|].
  unfold emission. subst p. rewrite rim_radius_zero by exact Hn.
  destruct (Z.rem (Z.of_nat k) 2 =? 0); repeat constructor.
Qed.

End GeometryMore.

(** ** Polling *)

Section Polling.
Import Platform GL Program Text.

Variables (P : Random) (D : Driver).

(** What the callback of one event does, field by field. *)
Lemma dispatch_fields (w : process P) (e : event) :
  should_close (dispatch w e) = should_close w || closing e /\
  need_redraw (dispatch w e) = need_redraw w || wants_redraw e /\
  (gWidth (dispatch w e), gHeight (dispatch w e)) =
    match e with
    | WindowSizeEvent width height => (width, height)
    | _ => (gWidth w, gHeight w)
    end /\
  calls (dispatch w e) = calls w ++ event_calls e /\
  stderr (dispatch w e) = stderr w ++ event_errors e /\
  vertices (dispatch w e) = vertices w /\
  stdout (dispatch w e) = stdout w /\
  crand (dispatch w e) = crand w.
Proof.
  destruct e as [key scancode action mods|width height| | |error description];
    cbn [dispatch closing wants_redraw event_calls event_errors].
  - unfold key_callback, SetWindowShouldClose.
    destruct ((key =? GLFW_KEY_ESCAPE) && (action =? GLFW_PRESS));
      cbn; rewrite ?orb_true_r, ?orb_false_r, ?app_nil_r; repeat split.
  - cbn. rewrite ?orb_true_r, ?orb_false_r, ?app_nil_r. repeat split.
  - cbn. rewrite ?orb_true_r, ?orb_false_r, ?app_nil_r. repeat split.
  - cbn. rewrite ?orb_true_r, ?orb_false_r, ?app_nil_r. repeat split.
  - cbn. rewrite ?orb_true_r, ?orb_false_r, ?app_nil_r. repeat split.
Qed.

(** The same for a sequence of events, delivered in order. *)
Lemma dispatch_all_fields (pending : list event) (w : process P) :
  let w' := fold_left (@dispatch P) pending w in
  should_close w' = should_close w || existsb closing pending /\
  need_redraw w' = need_redraw w || existsb wants_redraw pending /\
  (gWidth w', gHeight w') =
    match last_size pending with
    | Some size => size
    | None => (gWidth w, gHeight w)
    end /\
  calls w' = calls w ++ flat_map event_calls pending /\
  stderr w' = stderr w ++ flat_map event_errors pending /\
  vertices w' = vertices w /\ stdout w' = stdout w /\ crand w' = crand w.
Proof.
  revert w. induction pending as [|e rest IH] using rev_ind; intros w w'.
  - subst w'. cbn. rewrite !orb_false_r, !app_nil_r. repeat split.
  - subst w'. rewrite fold_left_app. cbn [fold_left].
    destruct (IH w) as (Hc & Hr & Hs & Hcalls & Herr & Hv & Hout & Hrand).
    destruct (dispatch_fields (fold_left (@dispatch P) rest w) e)
      as (Hc' & Hr' & Hs' & Hcalls' & Herr' & Hv' & Hout' & Hrand').
    rewrite Hc', Hr', Hs', Hcalls', Herr', Hv', Hout', Hrand'.
    rewrite Hc, Hr, Hcalls, Herr, Hv, Hout, Hrand.
    rewrite !existsb_app, !flat_map_app. cbn [existsb flat_map].
    rewrite !orb_false_r, !app_nil_r, !orb_assoc, !app_assoc.
    unfold last_size. rewrite fold_left_app. cbn [fold_left].
    fold (last_size rest).
    repeat split.
    destruct e; try exact Hs; reflexivity.
Qed.

Lemma poll_window_size_fields (pending : list event) (w : process P) :
  (gWidth (PollEvents pending w), gHeight (PollEvents pending w)) =
    match last_size pending with
    | Some size => size
    | None => (gWidth w, gHeight w)
    end /\
  need_redraw (PollEvents pending w) =
    need_redraw w || existsb wants_redraw pending.
Proof.
  unfold PollEvents.
  destruct (dispatch_all_fields pending (issue glfwPollEvents w))
    as (_ & Hr & Hs & _).
  split; [exact Hs | exact Hr].
Qed.

Lemma poll_should_close_field (pending : list event) (w : process P) :
  should_close (PollEvents pending w) =
  should_close w || existsb closing pending.
Proof.
  unfold PollEvents.
  destruct (dispatch_all_fields pending (issue glfwPollEvents w)) as [H _].
  exact H.
Qed.

(** X8: after a poll the should-close flag is up exactly when it was up
    before or the poll delivered a press of Escape or a close request; no
    event lowers it, and releases or repeats of Escape, other keys, resize,
    refresh and error events do not raise it. *)
Theorem poll_should_close :
  forall (pending : list event) (w : process P),
    should_close (PollEvents pending w) =
    should_close w || existsb closing pending.
Proof.
  intros pending w. unfold PollEvents.
  destruct (dispatch_all_fields pending (issue glfwPollEvents w)) as [H _].
  exact H.
Qed.

(** X9: after a poll [gWidth] and [gHeight] are the size of the last resize
    notification the poll delivered, unchanged if there was none, whatever
    that size is; [need_redraw] is set if the poll delivered a resize or a
    refresh and is never cleared. *)
Theorem poll_window_size :
  forall (pending : list event) (w : process P),
    let w' := PollEvents pending w in
    (gWidth w', gHeight w') =
      match last_size pending with
      | Some size => size
      | None => (gWidth w, gHeight w)
      end /\
    need_redraw w' = need_redraw w || existsb wants_redraw pending.
Proof.
  intros pending w w'. subst w'. unfold PollEvents.
  destruct (dispatch_all_fields pending (issue glfwPollEvents w))
    as (_ & Hr & Hs & _).
  split; [exact Hs | exact Hr].
Qed.

Lemma PollEvents_effects (pending : list event) (w : process P) :
  calls (PollEvents pending w) =
    calls w ++ glfwPollEvents :: flat_map event_calls pending /\
  stderr (PollEvents pending w) = stderr w ++ flat_map event_errors pending /\
  vertices (PollEvents pending w) = vertices w /\
  stdout (PollEvents pending w) = stdout w /\
  crand (PollEvents pending w) = crand w.
Proof.
  unfold PollEvents.
  destruct (dispatch_all_fields pending (issue glfwPollEvents w))
    as (_ & _ & _ & Hcalls & Herr & Hv & Hout & Hrand).
  rewrite Hcalls, Herr, Hv, Hout, Hrand. cbn [calls stderr vertices stdout
                                              crand issue].
  rewrite <- app_assoc. repeat split.
Qed.

(** X10: the only calls a poll makes besides [glfwPollEvents] itself are one
    [glfwSwapBuffers] for every refresh event and one
    [glfwSetWindowShouldClose(window, GLFW_TRUE)] for every press of Escape,
    in the order of the events; it writes one line [Error: <description>]
    to [stderr] for every error event and nothing to [stdout], and touches
    neither the points nor [rand()]. *)
Theorem poll_effects :
  forall (pending : list event) (w : process P),
    let w' := PollEvents pending w in
    calls w' = calls w ++ glfwPollEvents :: flat_map event_calls pending /\
    stderr w' = stderr w ++ flat_map event_errors pending /\
    vertices w' = vertices w /\ stdout w' = stdout w /\ crand w' = crand w.
Proof. intros pending w. exact (PollEvents_effects pending w). Qed.

End Polling.

(** ** The run as a whole *)

Section WholeRun.
Import Platform GL Program Text.
Import Vert(vec2, Vec2).

Variables (P : Random) (D : Driver).

Lemma issue_extend (c : call) (cs : list call) (errs : list String.string)
    (w : process P) :
  issue c (extend cs errs w) = extend (cs ++ [c]) errs w.
Proof. unfold issue, extend. cbn. now rewrite app_assoc. Qed.

Lemma eprintf_extend (fmt : String.string) (args : list arg)
    (cs : list call) (errs : list String.string) (w : process P) :
  eprintf fmt args (extend cs errs w) =
  extend cs (errs ++ [format fmt args]) w.
Proof. unfold eprintf, extend. cbn. now rewrite app_assoc. Qed.

Lemma vertices_extend (cs : list call) (errs : list String.string)
    (w : process P) : vertices (extend cs errs w) = vertices w.
Proof. reflexivity. Qed.

Lemma extend_nothing (w : process P) : extend [] [] w = w.
Proof. destruct w. unfold extend. cbn. now rewrite !app_nil_r. Qed.

Lemma extend_extend (cs cs' : list call) (errs errs' : list String.string)
    (w : process P) :
  extend cs' errs' (extend cs errs w) = extend (cs ++ cs') (errs ++ errs') w.
Proof. unfold extend. cbn. now rewrite !app_assoc. Qed.

(** [compile_shader] in terms of [extend]. *)
Lemma compile_shader_extend (shader_type : Z) (source : String.string)
    (cs : list call) (w : process P) :
  compile_shader D shader_type source (extend cs [] w) =
  match compile D shader_type source with
  | None =>
      Ret (create_shader D shader_type)
          (extend (cs ++ compile_calls D shader_type source) [] w)
  | Some log =>
      Halt 255 (extend (cs ++ compile_calls D shader_type source)
                       [diagnostic shader_type log] w)
  end.
Proof.
  rewrite compile_shader_spec. unfold compiled, compile_calls.
  rewrite !issue_extend, <- !app_assoc. cbn [app].
  destruct (compile D shader_type source) as [log|]; [|reflexivity].
  rewrite eprintf_extend, format_diagnostic. reflexivity.
Qed.

(** [setup] makes the calls and writes the lines of its summary, and ends
    the process or not as the summary says. *)
Lemma setup_spec (inp : run_input) (w : process P) :
  setup D inp w =
  let '(cs, errs, status) := setup_summary D inp (vertices w) in
  match status with
  | Some code => Halt code (extend cs errs w)
  | None => Ret tt (extend cs errs w)
  end.
Proof.
  unfold setup_summary, setup, bind, run, ret, exit.
  rewrite <- (extend_nothing w) at 1.
  rewrite !issue_extend. cbn [app].
  destruct (init_ok inp); cbn [negb]; [|reflexivity].
  rewrite !issue_extend. cbn [app].
  destruct (window_ok inp); cbn [negb];
    [|rewrite issue_extend; reflexivity].
  cbv beta. rewrite !issue_extend, !vertices_extend.
  cbn [app compile_all stages].
  rewrite compile_shader_extend.
  destruct (compile D GL_VERTEX_SHADER vertex_shader_text); [reflexivity|].
  rewrite compile_shader_extend.
  destruct (compile D GL_GEOMETRY_SHADER geom_shader_text); [reflexivity|].
  rewrite compile_shader_extend.
  destruct (compile D GL_FRAGMENT_SHADER fragment_shader_text);
    [reflexivity|].
  rewrite !issue_extend. reflexivity.
Qed.

Lemma count_calls_app (kind : call -> bool) (cs cs' : list call) :
  count_calls kind (cs ++ cs') =
  (count_calls kind cs + count_calls kind cs')%nat.
Proof. unfold count_calls. now rewrite filter_app, length_app. Qed.

Lemma count_calls_events (kind : call -> bool) (pending : list event) :
  kind glfwSwapBuffers = false ->
  kind (glfwSetWindowShouldClose GLFW_TRUE) = false ->
  count_calls kind (flat_map event_calls pending) = O.
Proof.
  intros Hswap Hclose. induction pending as [|e rest IH]; [reflexivity|].
  cbn [flat_map]. rewrite count_calls_app, IH, Nat.add_0_r.
  destruct e as [key scancode action mods| | | |]; cbn [event_calls];
    try reflexivity.
  - destruct ((key =? GLFW_KEY_ESCAPE) && (action =? GLFW_PRESS));
      [|reflexivity].
    unfold count_calls. cbn [filter]. now rewrite Hclose.
  - unfold count_calls. cbn [filter]. now rewrite Hswap.
Qed.

(** What a redraw does to the process, field by field. *)
Lemma redraw_fields (inp : frame_input) (l : locals) (w : process P) :
  let w' := snd (redraw D inp (l, w)) in
  calls w' = calls w ++ redraw_calls D inp w /\
  need_redraw w' = true /\
  should_close w' = should_close w /\
  vertices w' = vertices w /\
  gWidth w' = gWidth w /\ gHeight w' = gHeight w /\
  stderr w' = stderr w /\ crand w' = crand w.
Proof.
  unfold redraw, redraw_calls.
  destruct (Rle_dec 1 (fps_time inp - previousTime l));
    cbn; rewrite <- !app_assoc; repeat split.
Qed.

(** The calls of one pass of the loop. *)
Lemma iteration_calls (inp : frame_input) (st : locals * process P) :
  calls (snd (iteration D inp st)) =
  calls (snd st) ++
  (if need_redraw (snd st) then redraw_calls D inp (snd st)
   else [usleep 1000]) ++
  glfwPollEvents :: flat_map event_calls (events inp).
Proof.
  unfold iteration. destruct st as [l w]. cbn [snd fst].
  destruct (need_redraw w).
  - destruct (redraw_fields inp l w) as (Hcalls & _).
    destruct (redraw D inp (l, w)) as [l' w']. cbn [snd] in *.
    destruct (PollEvents_effects P (events inp) w') as (-> & _).
    now rewrite Hcalls, <- app_assoc.
  - cbn [snd].
    destruct (PollEvents_effects P (events inp) (issue (usleep 1000) w))
      as (-> & _).
    cbn [calls issue]. now rewrite <- app_assoc.
Qed.

Lemma steady_extend (v : list vec2) (cs : list call)
    (errs : list String.string) (w : process P) :
  forallb quiet cs = true -> steady v w -> steady v (extend cs errs w).
Proof.
  intros Hq (Hv & Hr & Hu & Hd & Hall).
  assert (Hcount : count_calls is_usleep cs = O /\
                   count_calls is_draw cs = O /\
                   count_calls is_poll cs = O /\
                   Forall (whole_buffer v) cs).
  { clear -Hq. induction cs as [|c cs IH]; [repeat split; constructor|].
    cbn [forallb] in Hq. apply andb_prop in Hq. destruct Hq as [Hc Hq].
    destruct (IH Hq) as (Hu & Hd & Hp & Hall).
    unfold count_calls in *. cbn [filter].
    unfold quiet in Hc. apply negb_true_iff in Hc.
    apply orb_false_elim in Hc. destruct Hc as [Hc Hs].
    apply orb_false_elim in Hc. destruct Hc as [Hdr Hpo].
    rewrite Hs, Hdr, Hpo. repeat split; try assumption.
    constructor; [|exact Hall]. now destruct c. }
  destruct Hcount as (Hu' & Hd' & Hp' & Hall').
  unfold steady. cbn [vertices need_redraw calls extend].
  rewrite !count_calls_app, Hu, Hd, Hu', Hd', Hp'.
  repeat split; try assumption. apply Forall_app. now split.
Qed.

Lemma steady_iteration (v : list vec2) (inp : frame_input)
    (st : locals * process P) :
  steady v (snd st) -> steady v (snd (iteration D inp st)).
Proof.
  intros (Hv & Hr & Hu & Hd & Hall).
  pose proof (iteration_calls inp st) as Hcalls. rewrite Hr in Hcalls.
  assert (Hfields : vertices (snd (iteration D inp st)) = v /\
                    need_redraw (snd (iteration D inp st)) = true).
  { unfold iteration. rewrite Hr. destruct st as [l w]. cbn [snd] in *.
    destruct (redraw_fields inp l w) as (_ & Hr' & _ & Hv' & _).
    destruct (redraw D inp (l, w)) as [l' w']. cbn [snd] in *.
    destruct (PollEvents_effects P (events inp) w') as (_ & _ & -> & _).
    destruct (poll_window_size_fields P (events inp) w') as [_ ->].
    rewrite Hv', Hr', Hv. split; reflexivity. }
  destruct Hfields as [Hv' Hr'].
  unfold steady. rewrite Hcalls, Hv', Hr'.
  change (glfwPollEvents :: flat_map event_calls (events inp))
    with ([glfwPollEvents] ++ flat_map event_calls (events inp)).
  rewrite !count_calls_app, !count_calls_events by reflexivity.
  rewrite Hu, Hd. repeat split.
  repeat (apply Forall_app; split); try assumption.
  - unfold redraw_calls. repeat constructor. now rewrite Hv.
  - repeat constructor.
  - clear. induction (events inp) as [|e rest IH]; [constructor|].
    cbn [flat_map]. apply Forall_app. split; [|exact IH].
    destruct e as [key scancode action mods| | | |]; cbn [event_calls];
      try constructor; try exact I; try constructor.
    destruct ((key =? GLFW_KEY_ESCAPE) && (action =? GLFW_PRESS));
      repeat constructor.
Qed.

Lemma steady_issue (v : list vec2) (c : call) (w : process P) :
  quiet c = true -> steady v w -> steady v (issue c w).
Proof.
  intros Hq Hw.
  rewrite <- (extend_nothing w), issue_extend. cbn [app].
  apply steady_extend; [|exact Hw]. cbn [forallb]. now rewrite Hq.
Qed.

Lemma steady_main_loop (v : list vec2) (frames : list frame_input)
    (st : locals * process P) :
  steady v (snd st) -> steady v (snd (loop_state (main_loop D frames st))).
Proof.
  revert st. induction frames as [|inp rest IH]; intros st Hst;
    cbn [main_loop]; destruct (should_close (snd st)); try exact Hst.
  apply IH. now apply steady_iteration.
Qed.

Lemma steady_loop_and_shutdown (v : list vec2) (frames : list frame_input)
    (st : locals * process P) :
  steady v (snd st) -> steady v (state_of (loop_and_shutdown D frames st)).
Proof.
  intros Hst. pose proof (steady_main_loop v frames st Hst) as H.
  unfold loop_and_shutdown.
  destruct (main_loop D frames st) as [st'|st']; cbn [loop_state] in H.
  - unfold shutdown, bind, run, exit, finish. cbn [state_of].
    apply steady_issue; [reflexivity|].
    apply steady_issue; [reflexivity | exact H].
  - exact H.
Qed.

(** None of the calls of [setup] is a draw, a poll or a sleep. *)
Lemma setup_quiet (inp : run_input) (v : list vec2) :
  forallb quiet (fst (fst (setup_summary D inp v))) = true.
Proof.
  unfold setup_summary.
  destruct (init_ok inp); cbn [negb]; [|reflexivity].
  destruct (window_ok inp); cbn [negb]; [|reflexivity].
  cbn [compile_all stages].
  destruct (compile D GL_VERTEX_SHADER vertex_shader_text); [reflexivity|].
  destruct (compile D GL_GEOMETRY_SHADER geom_shader_text); [reflexivity|].
  destruct (compile D GL_FRAGMENT_SHADER fragment_shader_text); reflexivity.
Qed.

Lemma steady_setup (v : list vec2) (inp : run_input) (w : process P) :
  steady v w -> steady v (result_state (setup D inp w)).
Proof.
  intros Hw. rewrite setup_spec.
  pose proof (setup_quiet inp (vertices w)) as Hq.
  destruct (setup_summary D inp (vertices w)) as [[cs errs] [code|]];
    cbn [fst result_state] in *; now apply steady_extend.
Qed.

Lemma steady_start :
  steady (vertices (generate_vertices (boot P))) (generate_vertices (boot P)).
Proof.
  destruct (generate_vertices_boot P) as (_ & _ & _ & Hr & _ & Hcalls & _).
  unfold steady. rewrite Hr, Hcalls. repeat split. constructor.
Qed.

(** Every run ends in a steady state. *)
Lemma main_steady (inp : run_input) :
  steady (vertices (generate_vertices (boot P))) (state_of (main P D inp)).
Proof.
  pose proof steady_start as H0. unfold main.
  remember (generate_vertices (boot P)) as w0 eqn:Hw0. clear Hw0.
  pose proof (steady_setup (vertices w0) inp w0 H0) as Hs.
  destruct (setup D inp w0) as [[] w1|code w1]; cbn [result_state state_of] in *.
  - now apply steady_loop_and_shutdown.
  - exact Hs.
Qed.

(** X11: in every run a redraw is due at every test of the loop: the branch
    that sleeps is never taken ([usleep] is never called), and every pass
    that polls has drawn first, so that the run makes as many draw calls as
    polls. *)
Theorem every_pass_redraws :
  forall inp : run_input,
    let w := state_of (main P D inp) in
    need_redraw w = true /\
    count_calls is_usleep (calls w) = O /\
    count_calls is_draw (calls w) = count_calls is_poll (calls w).
Proof.
  intros inp w. subst w.
  destruct (main_steady inp) as (_ & Hr & Hu & Hd & _).
  repeat split; assumption.
Qed.

(** X12: every draw call of every run is
    [glDrawArrays(GL_POINTS, 0, 100000000)]: each frame draws the whole
    buffer. *)
Theorem every_draw_covers_buffer :
  forall inp : run_input,
    Forall (fun c => match c with
                     | glDrawArrays mode first count =>
                         mode = GL_POINTS /\ first = 0 /\ count = 100000000
                     | _ => True
                     end)
           (calls (state_of (main P D inp))).
Proof.
  intros inp.
  destruct (main_steady inp) as (_ & _ & _ & _ & Hall).
  assert (Hn : to_int (Z.of_nat (length (vertices (generate_vertices (boot P)))))
               = 100000000).
  { unfold generate_vertices. rewrite generate_vertices_length_nat.
    rewrite Z2Nat.id by lia. reflexivity. }
  revert Hall. apply Forall_impl. intros c Hc.
  destruct c; try exact I. unfold whole_buffer in Hc. now rewrite Hn in Hc.
Qed.

(** How the loop ends: left with the flag up and status 0, or still running
    with the flag down. *)
Lemma loop_outcome (frames : list frame_input) (st : locals * process P) :
  match loop_and_shutdown D frames st with
  | Exited status w => status = 0 /\ should_close w = true
  | Running w => should_close w = false
  end.
Proof.
  unfold loop_and_shutdown. revert st.
  induction frames as [|inp rest IH]; intros st; cbn [main_loop];
    destruct (should_close (snd st)) eqn:Hc.
  - cbn. now split.
  - exact Hc.
  - cbn. now split.
  - apply IH.
Qed.

(** A run in terms of the summary of [setup]. *)
Lemma main_outcome (inp : run_input) (w0 : process P) :
  match setup D inp w0 with
  | Halt status w => Exited status w
  | Ret _ w => loop_and_shutdown D (frames inp) (Locals 0 (start_time inp), w)
  end =
  let '(cs, errs, status) := setup_summary D inp (vertices w0) in
  match status with
  | Some code => Exited code (extend cs errs w0)
  | None =>
      loop_and_shutdown D (frames inp)
        (Locals 0 (start_time inp), extend cs errs w0)
  end.
Proof.
  rewrite setup_spec.
  now destruct (setup_summary D inp (vertices w0)) as [[cs errs] [code|]].
Qed.

(** X13: the exit status of a run is 1 exactly when [glfwInit] or the
    creation of the window failed, 255 exactly when both succeeded and the
    compiler rejected one of the three shaders, and 0 only when both
    succeeded, the three shaders compiled (whatever the linker then did) and
    the window was asked to close; a run that has not ended is in its loop
    with the should-close flag down. *)
Theorem exit_status :
  forall inp : run_input,
    match main P D inp with
    | Exited status w =>
        (status = 1 /\ init_ok inp && window_ok inp = false) \/
        (status = 255 /\ init_ok inp && window_ok inp = true /\
         first_rejected D <> None) \/
        (status = 0 /\ init_ok inp && window_ok inp = true /\
         first_rejected D = None /\ should_close w = true)
    | Running w =>
        init_ok inp && window_ok inp = true /\
        first_rejected D = None /\ should_close w = false
    end.
Proof.
  intros inp. unfold main.
  remember (generate_vertices (boot P)) as w0 eqn:Hw0. clear Hw0.
  rewrite main_outcome. unfold setup_summary, first_rejected.
  destruct (init_ok inp); cbn [negb andb]; [|left; now split].
  destruct (window_ok inp); cbn [negb andb]; [|left; now split].
  destruct (compile_all D stages) as [cs [[shader_type log]|]]; cbn [snd].
  - right. left. repeat split. discriminate.
  - pose proof (loop_outcome (frames inp)
                  (Locals 0 (start_time inp),
                   extend (init_calls ++ window_calls ++
                           context_calls D (vertices w0) ++ cs ++
                           program_calls D) [] w0)) as H.
    destruct (loop_and_shutdown D (frames inp) _) as [status w|w].
    + right. right. destruct H as [-> H]. repeat split. exact H.
    + repeat split. exact H.
Qed.

Lemma filter_events (kind : call -> bool) (pending : list event) :
  kind glfwSwapBuffers = false ->
  kind (glfwSetWindowShouldClose GLFW_TRUE) = false ->
  filter kind (flat_map event_calls pending) = [].
Proof.
  intros Hswap Hclose.
  pose proof (count_calls_events kind pending Hswap Hclose) as H.
  unfold count_calls in H. now apply length_zero_iff_nil.
Qed.

(** The calls of a kind that neither the loop nor the shutdown makes are the
    same after them as before. *)
Lemma loop_filter_unchanged (kind : call -> bool)
    (frames : list frame_input) (st : locals * process P) :
  (forall inp (w : process P), filter kind (redraw_calls D inp w) = []) ->
  kind (usleep 1000) = false -> kind glfwPollEvents = false ->
  kind glfwSwapBuffers = false ->
  kind (glfwSetWindowShouldClose GLFW_TRUE) = false ->
  kind glfwDestroyWindow = false -> kind glfwTerminate = false ->
  filter kind (calls (state_of (loop_and_shutdown D frames st))) =
  filter kind (calls (snd st)).
Proof.
  intros Hredraw Hsleep Hpoll Hswap Hclose Hdestroy Hterm.
  assert (Hiter : forall inp (st' : locals * process P),
             filter kind (calls (snd (iteration D inp st'))) =
             filter kind (calls (snd st'))).
  { intros inp st'. rewrite iteration_calls.
    change (glfwPollEvents :: flat_map event_calls (events inp))
      with ([glfwPollEvents] ++ flat_map event_calls (events inp)).
    rewrite !filter_app, filter_events by assumption.
    destruct (need_redraw (snd st')).
    - rewrite Hredraw. cbn [filter]. rewrite Hpoll. now rewrite !app_nil_r.
    - cbn [filter]. rewrite Hsleep, Hpoll. now rewrite !app_nil_r. }
  unfold loop_and_shutdown. revert st.
  induction frames as [|inp rest IH]; intros st; cbn [main_loop];
    destruct (should_close (snd st)).
  - cbn [finish shutdown bind run exit state_of calls issue snd].
    rewrite !filter_app. cbn [filter]. rewrite Hdestroy, Hterm.
    now rewrite !app_nil_r.
  - reflexivity.
  - cbn [finish shutdown bind run exit state_of calls issue snd].
    rewrite !filter_app. cbn [filter]. rewrite Hdestroy, Hterm.
    now rewrite !app_nil_r.
  - rewrite IH. apply Hiter.
Qed.

(** X14: a run that ends with a status other than 0 has never created,
    linked or used a program object, set a uniform or drawn: it ended before
    [glCreateProgram]. *)
Theorem failed_run_without_program :
  forall inp : run_input,
    match main P D inp with
    | Exited status w =>
        status = 0 \/ count_calls needs_program (calls w) = O
    | Running _ => True
    end.
Proof.
  intros inp.
  destruct (generate_vertices_boot P) as (_ & _ & _ & _ & _ & Hcalls & _).
  unfold main.
  remember (generate_vertices (boot P)) as w0 eqn:Hw0. clear Hw0.
  rewrite main_outcome. unfold setup_summary.
  destruct (init_ok inp); cbn [negb];
    [|right; cbn [calls extend]; rewrite Hcalls; reflexivity].
  destruct (window_ok inp); cbn [negb];
    [|right; cbn [calls extend]; rewrite Hcalls; reflexivity].
  cbn [compile_all stages].
  destruct (compile D GL_VERTEX_SHADER vertex_shader_text);
    [right; cbn [calls extend]; rewrite Hcalls; reflexivity|].
  destruct (compile D GL_GEOMETRY_SHADER geom_shader_text);
    [right; cbn [calls extend]; rewrite Hcalls; reflexivity|].
  destruct (compile D GL_FRAGMENT_SHADER fragment_shader_text);
    [right; cbn [calls extend]; rewrite Hcalls; reflexivity|].
  match goal with
  | |- match loop_and_shutdown D ?f ?st with _ => _ end =>
      pose proof (loop_outcome f st) as H;
      destruct (loop_and_shutdown D f st) as [status w|w]
  end.
  - left. now destruct H.
  - exact I.
Qed.

(** X15: the shaders are created and compiled in the order vertex, geometry,
    fragment, each once, and after the first one the compiler rejects no
    further shader is created; nothing is compiled if [glfwInit] or the
    creation of the window failed, nor later in the run. *)
Theorem shaders_compiled_in_order :
  forall inp : run_input,
    filter is_create_shader (calls (state_of (main P D inp))) =
    if init_ok inp && window_ok inp
    then glCreateShader GL_VERTEX_SHADER ::
         match compile D GL_VERTEX_SHADER vertex_shader_text with
         | Some _ => []
         | None =>
             glCreateShader GL_GEOMETRY_SHADER ::
             match compile D GL_GEOMETRY_SHADER geom_shader_text with
             | Some _ => []
             | None => [glCreateShader GL_FRAGMENT_SHADER]
             end
         end
    else [].
Proof.
  intros inp.
  destruct (generate_vertices_boot P) as (_ & _ & _ & _ & _ & Hcalls & _).
  unfold main.
  remember (generate_vertices (boot P)) as w0 eqn:Hw0. clear Hw0.
  rewrite main_outcome. unfold setup_summary.
  destruct (init_ok inp); cbn [negb andb];
    [|cbn [state_of calls extend]; rewrite Hcalls; reflexivity].
  destruct (window_ok inp); cbn [negb andb];
    [|cbn [state_of calls extend]; rewrite Hcalls; reflexivity].
  cbn [compile_all stages].
  destruct (compile D GL_VERTEX_SHADER vertex_shader_text);
    [cbn [state_of calls extend]; rewrite Hcalls; reflexivity|].
  destruct (compile D GL_GEOMETRY_SHADER geom_shader_text);
    [cbn [state_of calls extend]; rewrite Hcalls; reflexivity|].
  destruct (compile D GL_FRAGMENT_SHADER fragment_shader_text);
    [cbn [state_of calls extend]; rewrite Hcalls; reflexivity|].
  rewrite loop_filter_unchanged by reflexivity.
  cbn [snd calls extend]. rewrite Hcalls. reflexivity.
Qed.

(** X16: [compile_shader] makes the three calls that create, load and
    compile the shader; when the compiler accepts the source it returns the
    name of the shader and writes nothing; when it rejects the source the
    process ends with status 255 after one line [<stage>: <info log>] on
    [stderr], where the stage reads [vertex] for a vertex shader, [fragment]
    for a fragment shader and [unknown type] for every other type. *)
Theorem compile_shader_outcome :
  forall (shader_type : Z) (source : String.string) (w : process P),
    match compile D shader_type source with
    | None =>
        compile_shader D shader_type source w =
        Ret (create_shader D shader_type)
            (extend (compile_calls D shader_type source) [] w)
    | Some log =>
        compile_shader D shader_type source w =
        Halt 255 (extend (compile_calls D shader_type source)
                         [diagnostic shader_type log] w) /\
        diagnostic shader_type log =
          String.append
            (if shader_type =? GL_VERTEX_SHADER then "vertex"
             else if shader_type =? GL_FRAGMENT_SHADER then "fragment"
             else "unknown type")
            (String.append ": " (String.append log nl))
    end.
Proof.
  intros shader_type source w.
  pose proof (compile_shader_extend shader_type source [] w) as H.
  rewrite extend_nothing in H. cbn [app] in H.
  destruct (compile D shader_type source) as [log|]; [|exact H].
  split; [exact H | reflexivity].
Qed.

(** X17: one pass of the loop, call by call.  If a redraw is due: the
    viewport is set to the framebuffer size read in this pass, the colour
    buffer cleared, the program selected, the matrix of the frame and then
    the [Resolution] -- the globals [gWidth] and [gHeight], not the
    framebuffer size -- handed over, all points drawn and the buffers
    swapped; otherwise the process sleeps for a millisecond.  Either way it
    then polls, and the callbacks of the events make their calls in order. *)
Theorem pass_calls :
  forall (inp : frame_input) (st : locals * process P),
    calls (snd (iteration D inp st)) =
    calls (snd st) ++
    (if need_redraw (snd st)
     then [glViewport 0 0 (fb_width inp) (fb_height inp);
           glClear GL_COLOR_BUFFER_BIT;
           glUseProgram (program D);
           glUniformMatrix4fv (mvp_location D) 1 GL_FALSE
             (frame_mvp (fb_width inp) (fb_height inp) (draw_time inp));
           glUniform2i (res_location D) (gWidth (snd st)) (gHeight (snd st));
           glDrawArrays GL_POINTS 0
             (to_int (Z.of_nat (length (vertices (snd st)))));
           glfwSwapBuffers]
     else [usleep 1000]) ++
    glfwPollEvents :: flat_map event_calls (events inp).
Proof. intros inp st. exact (iteration_calls inp st). Qed.

(** The two flags after one pass. *)
Lemma iteration_flags (inp : frame_input) (st : locals * process P) :
  should_close (snd (iteration D inp st)) =
    should_close (snd st) || existsb closing (events inp) /\
  (need_redraw (snd st) = true ->
   need_redraw (snd (iteration D inp st)) = true).
Proof.
  unfold iteration. destruct st as [l w]. cbn [snd fst].
  destruct (need_redraw w) eqn:Hr.
  - destruct (redraw_fields inp l w) as (_ & Hr' & Hc' & _).
    destruct (redraw D inp (l, w)) as [l' w']. cbn [snd] in *.
    rewrite poll_should_close_field, Hc'.
    destruct (poll_window_size_fields P (events inp) w') as [_ ->].
    rewrite Hr'. split; reflexivity.
  - cbn [snd]. rewrite poll_should_close_field. split; [reflexivity|].
    discriminate.
Qed.

(** As long as the frames are calm the loop makes one pass per frame. *)
Lemma main_loop_calm (pre rest : list frame_input) (st : locals * process P) :
  should_close (snd st) = false ->
  Forall calm pre ->
  main_loop D (pre ++ rest) st = main_loop D rest (after_passes D pre st) /\
  should_close (snd (after_passes D pre st)) = false.
Proof.
  revert st. induction pre as [|inp pre IH]; intros st Hopen Hcalm.
  - split; [reflexivity | exact Hopen].
  - inversion Hcalm as [|? ? Hinp Hpre]; subst.
    cbn [app main_loop after_passes fold_left]. rewrite Hopen.
    apply IH; [|exact Hpre].
    destruct (iteration_flags inp st) as [-> _].
    now rewrite Hopen, Hinp.
Qed.

(** Passes in which a redraw is due draw once each. *)
Lemma after_passes_draws (frames : list frame_input)
    (st : locals * process P) :
  need_redraw (snd st) = true ->
  need_redraw (snd (after_passes D frames st)) = true /\
  count_calls is_draw (calls (snd (after_passes D frames st))) =
    (count_calls is_draw (calls (snd st)) + length frames)%nat.
Proof.
  revert st. induction frames as [|inp rest IH]; intros st Hr.
  - split; [exact Hr | cbn; lia].
  - cbn [after_passes fold_left length].
    destruct (iteration_flags inp st) as [_ Hr'].
    destruct (IH (iteration D inp st) (Hr' Hr)) as [Hr'' Hd].
    split; [exact Hr''|].
    unfold after_passes in Hd. rewrite Hd, iteration_calls, Hr.
    change (glfwPollEvents :: flat_map event_calls (events inp))
      with ([glfwPollEvents] ++ flat_map event_calls (events inp)).
    rewrite !count_calls_app, count_calls_events by reflexivity.
    unfold redraw_calls, count_calls. cbn [filter is_draw length]. lia.
Qed.

(** X18: the process does not leave the loop on its own: from a state with
    the should-close flag down and a redraw due, frames whose polls deliver
    no press of Escape and no close request are all consumed, one pass and
    one draw call each, and the loop is still running after them. *)
Theorem loop_runs_while_calm :
  forall (frames : list frame_input) (st : locals * process P),
    should_close (snd st) = false ->
    need_redraw (snd st) = true ->
    Forall calm frames ->
    loop_and_shutdown D frames st = Running (snd (after_passes D frames st)) /\
    count_calls is_draw (calls (snd (after_passes D frames st))) =
      (count_calls is_draw (calls (snd st)) + length frames)%nat.
Proof.
  intros frames st Hopen Hr Hcalm.
  destruct (main_loop_calm frames [] st Hopen Hcalm) as [Hloop Hopen'].
  rewrite app_nil_r in Hloop. split.
  - unfold loop_and_shutdown. rewrite Hloop. cbn [main_loop].
    now rewrite Hopen'.
  - now apply after_passes_draws.
Qed.

(** X19: the loop ends with the first frame whose poll delivers a press of
    Escape or a close request: after calm frames [pre] and that frame the
    process destroys the window, terminates GLFW and exits with status 0,
    having drawn once for each of these frames; the input after that frame
    is never read. *)
Theorem loop_ends_at_first_close :
  forall (pre : list frame_input) (inp : frame_input)
         (rest : list frame_input) (st : locals * process P),
    should_close (snd st) = false ->
    need_redraw (snd st) = true ->
    Forall calm pre ->
    existsb closing (events inp) = true ->
    let last := snd (after_passes D (pre ++ [inp]) st) in
    loop_and_shutdown D (pre ++ inp :: rest) st =
      Exited 0 (issue glfwTerminate (issue glfwDestroyWindow last)) /\
    count_calls is_draw (calls last) =
      (count_calls is_draw (calls (snd st)) + length pre + 1)%nat.
Proof.
  intros pre inp rest st Hopen Hr Hcalm Hclose last. subst last.
  destruct (main_loop_calm pre (inp :: rest) st Hopen Hcalm)
    as [Hloop Hopen'].
  destruct (after_passes_draws (pre ++ [inp]) st Hr) as [_ Hd].
  rewrite length_app in Hd. cbn [length] in Hd. split.
  - unfold loop_and_shutdown. rewrite Hloop. cbn [main_loop].
    rewrite Hopen'.
    unfold after_passes. rewrite fold_left_app. cbn [fold_left].
    fold (after_passes D pre st).
    destruct (iteration_flags inp (after_passes D pre st)) as [Hc _].
    rewrite Hclose, orb_true_r in Hc.
    destruct rest; cbn [main_loop]; rewrite Hc; reflexivity.
  - rewrite Hd. lia.
Qed.

End WholeRun.

(** ** Instances of the further properties *)

Section MoreInstances.
Import Platform GL Program Text.

(** X2 for three points on the reference platform. *)
Lemma generate_vertices_effects_witness :
  let w := boot Reference.random in
  let w' := generate_vertices_with 3 w in
  crand w' = rand_after Reference.random (crand w) (Z.to_nat 3) /\
  calls w' = calls w /\ stderr w' = stderr w /\
  gWidth w' = gWidth w /\ gHeight w' = gHeight w /\
  need_redraw w' = need_redraw w /\ should_close w' = should_close w.
Proof.
  apply (generate_vertices_effects Reference.random 3 (boot Reference.random)).
  unfold INT_MAX. lia.
Defined.

(** X4 for 2500 points: the progress lines are those of 0, 1000 and 2000. *)
Lemma generate_vertices_progress_witness :
  stdout (generate_vertices_with 2500 (boot Reference.random)) =
    stdout (boot Reference.random) ++
    [String.append "Generating points" nl] ++
    progress_lines 2500 ++
    [String.append "Done generating "
       (String.append (decimal 2500) (String.append " points" nl))] /\
  Z.of_nat (length (progress_lines 2500)) = (2500 + 999) / 1000.
Proof.
  apply (generate_vertices_progress Reference.random 2500
           (boot Reference.random)).
  unfold INT_MAX. lia.
Defined.

Example progress_lines_2500 :
  progress_lines 2500 =
  [String.append "0" cr; String.append "1000" cr; String.append "2000" cr].
Proof. reflexivity. Qed.

(** X7 for an octagon of radius zero around the origin. *)
Lemma geom_fan_degenerate_witness :
  let p := GLSL.Vec4 (Some 0%R) (Some 0%R) (Some 0%R) (Some 1%R) in
  Forall (fun v => v = p)
         (Geom.emitted
            (Geom.main_with (GLSL.lit 0%R) 8 (GLSL.IVec2 640 480) [p])).
Proof.
  apply (geom_fan_degenerate 8 (GLSL.IVec2 640 480) 0%R 0%R 0%R 1%R);
    discriminate.
Defined.

(** X18 for two frames on the reference platform, the second with a refresh
    event and a release of Escape. *)
Lemma loop_runs_while_calm_witness :
  let D := Reference.driver in
  let frames :=
    [FrameInput 1024 768 0%R 0%R [];
     FrameInput 1024 768 1%R 1%R
       [WindowRefreshEvent; KeyEvent GLFW_KEY_ESCAPE 9 0 0]] in
  let st := (Locals 0 0%R, boot Reference.random) in
  loop_and_shutdown D frames st = Running (snd (after_passes D frames st)) /\
  count_calls is_draw (calls (snd (after_passes D frames st))) =
    (count_calls is_draw (calls (snd st)) + length frames)%nat.
Proof.
  intros D frames st.
  apply (loop_runs_while_calm Reference.random D frames st).
  - reflexivity.
  - reflexivity.
  - repeat constructor.
Defined.

(** X19 for a calm frame, a frame with a close request and a frame that is
    never read. *)
Lemma loop_ends_at_first_close_witness :
  let D := Reference.driver in
  let pre := [FrameInput 1024 768 0%R 0%R []] in
  let inp := FrameInput 1024 768 1%R 1%R [CloseRequest] in
  let rest := [FrameInput 0 0 2%R 2%R [WindowSizeEvent 0 0]] in
  let st := (Locals 0 0%R, boot Reference.random) in
  let last := snd (after_passes D (pre ++ [inp]) st) in
  loop_and_shutdown D (pre ++ inp :: rest) st =
    Exited 0 (issue glfwTerminate (issue glfwDestroyWindow last)) /\
  count_calls is_draw (calls last) =
    (count_calls is_draw (calls (snd st)) + length pre + 1)%nat.
Proof.
  intros D pre inp rest st.
  apply (loop_ends_at_first_close Reference.random D pre inp rest st).
  - reflexivity.
  - reflexivity.
  - repeat constructor.
  - reflexivity.
Defined.

End MoreInstances.
